(** * Philips air purifier fan entity (fan.py): a shallow embedding

    The entity classes [PhilipsGenericFan], [PhilipsGenericCoAPFan] and
    [PhilipsAC4236] of custom_components/philips_airpurifier/fan.py are
    modelled as one record of instance attributes and functions over it.
    Coroutines become computations in a state-and-exception monad; the
    device and the network are an explicit environment. *)

From stdpp Require Import gmap strings list fin_maps pretty.

Open Scope string_scope.

(** ** Python values and exceptions *)

(** The scalar values a decoded status carries: strings and integers. *)
Inductive value : Type :=
  | VStr (s : string)
  | VInt (n : Z).

Global Instance value_eq_dec : EqDecision value.
Proof. solve_decision. Defined.

Definition value_to_sum (v : value) : string + Z :=
  match v with VStr s => inl s | VInt n => inr n end.

Definition value_of_sum (x : string + Z) : value :=
  match x with inl s => VStr s | inr n => VInt n end.

Global Instance value_countable : Countable value.
Proof.
  apply (inj_countable' value_to_sum value_of_sum).
  intros []; reflexivity.
Defined.

(** A status snapshot is a Python dict from protocol keys to values. *)
Abbreviation Status := (gmap string value).

(** What an f-string replacement field [{v}] renders. *)
Definition py_format (v : value) : string :=
  match v with
  | VStr s => s
  | VInt n => pretty n
  end.

(** [o == s] for the result [o] of a [dict.get] and a string literal [s]. *)
Definition py_eq_str (o : option value) (s : string) : bool :=
  match o with
  | Some (VStr t) => bool_decide (t = s)
  | _ => false
  end.

(** The exceptions the module can meet.  [CancelledError] derives from
    [BaseException] only, every other one from [Exception]. *)
Inductive exn : Type :=
  | PlatformNotReady
  | KeyError (k : string)
  | AttributeError (attr : string)
  | TypeError
  | OverflowError
  | ClientError (msg : string)
  | CancelledError.

Global Instance exn_eq_dec : EqDecision exn.
Proof. solve_decision. Defined.

Definition is_Exception (e : exn) : bool :=
  match e with
  | CancelledError => false
  | _ => true
  end.

Inductive result (A : Type) : Type :=
  | Ok (a : A)
  | Raise (e : exn).
Arguments Ok {A} a.
Arguments Raise {A} e.

Definition is_Ok {A} (r : result A) : bool :=
  match r with Ok _ => true | Raise _ => false end.

(** ** The constants of const.py and of homeassistant.components.fan *)

(** const.py is not among the sources: its names are parameters of the
    development.  [runtime_seconds n] stands for the library computation
    [str(timedelta(seconds=round(n / 1000)))] on an integer [n]. *)
Class Const : Type := {
  ATTR_AIR_QUALITY_INDEX : string;
  ATTR_CHILD_LOCK : string;
  ATTR_DEVICE_ID : string;
  ATTR_DEVICE_VERSION : string;
  ATTR_DISPLAY_BACKLIGHT : string;
  ATTR_INDOOR_ALLERGEN_INDEX : string;
  ATTR_LANGUAGE : string;
  ATTR_LIGHT_BRIGHTNESS : string;
  ATTR_MODEL_ID : string;
  ATTR_NAME : string;
  ATTR_PM25 : string;
  ATTR_PREFERRED_INDEX : string;
  ATTR_PRODUCT_ID : string;
  ATTR_RUNTIME : string;
  ATTR_SOFTWARE_VERSION : string;
  ATTR_TOTAL_VOLATILE_ORGANIC_COMPOUNDS : string;
  ATTR_TYPE : string;
  ATTR_WIFI_VERSION : string;
  MODEL_AC4236 : string;
  PHILIPS_AIR_QUALITY_INDEX : string;
  PHILIPS_CHILD_LOCK : string;
  PHILIPS_DEVICE_ID : string;
  PHILIPS_DEVICE_VERSION : string;
  PHILIPS_DISPLAY_BACKLIGHT : string;
  PHILIPS_DISPLAY_BACKLIGHT_MAP : gmap value value;
  PHILIPS_INDOOR_ALLERGEN_INDEX : string;
  PHILIPS_LANGUAGE : string;
  PHILIPS_LIGHT_BRIGHTNESS : string;
  PHILIPS_MODE : string;
  PHILIPS_MODEL_ID : string;
  PHILIPS_NAME : string;
  PHILIPS_PM25 : string;
  PHILIPS_POWER : string;
  PHILIPS_PREFERRED_INDEX : string;
  PHILIPS_PREFERRED_INDEX_MAP : gmap value value;
  PHILIPS_PRODUCT_ID : string;
  PHILIPS_RUNTIME : string;
  PHILIPS_SOFTWARE_VERSION : string;
  PHILIPS_SPEED : string;
  PHILIPS_TOTAL_VOLATILE_ORGANIC_COMPOUNDS : string;
  PHILIPS_TYPE : string;
  PHILIPS_WIFI_VERSION : string;
  SPEED_OFF : string;
  SPEED_1 : string;
  SPEED_2 : string;
  SPEED_MODE_AUTO : string;
  SPEED_MODE_SLEEP : string;
  SPEED_MODE_TURBO : string;
  runtime_seconds : Z → result string;
}.

(** ** The entity object *)

(** The handle returned by [CoAPClient.create]. *)
Record Client : Type := mkClient { client_host : string }.

(** An asyncio task running [_observe_status]. *)
Inductive Task : Type :=
  | Running
  | Finished (e : option exn).

(** Instance attributes.  An attribute that an instance may not have yet
    is an option: [None] means reading it raises [AttributeError].
    [_state] and [_unique_id] hold Python's [None] as [None];
    [_observer_task] holds the index of a task in the event loop. *)
Record Fan : Type := mkFan {
  _host : string;
  _model : string;
  _name : string;
  _icon : string;
  _available : bool;
  _state : option bool;
  _unique_id : option string;
  _device_state : Status;
  _client : option Client;
  _observer_task : option (option nat);
  _device_status : option Status;
}.


Definition set_available (b : bool) (f : Fan) : Fan :=
  {| _host := _host f; _model := _model f; _name := _name f; _icon := _icon f;
     _available := b; _state := _state f; _unique_id := _unique_id f;
     _device_state := _device_state f; _client := _client f;
     _observer_task := _observer_task f; _device_status := _device_status f |}.

Definition set_state (b : option bool) (f : Fan) : Fan :=
  {| _host := _host f; _model := _model f; _name := _name f; _icon := _icon f;
     _available := _available f; _state := b; _unique_id := _unique_id f;
     _device_state := _device_state f; _client := _client f;
     _observer_task := _observer_task f; _device_status := _device_status f |}.

Definition set_unique_id (u : option string) (f : Fan) : Fan :=
  {| _host := _host f; _model := _model f; _name := _name f; _icon := _icon f;
     _available := _available f; _state := _state f; _unique_id := u;
     _device_state := _device_state f; _client := _client f;
     _observer_task := _observer_task f; _device_status := _device_status f |}.

Definition set_client (c : Client) (f : Fan) : Fan :=
  {| _host := _host f; _model := _model f; _name := _name f; _icon := _icon f;
     _available := _available f; _state := _state f; _unique_id := _unique_id f;
     _device_state := _device_state f; _client := Some c;
     _observer_task := _observer_task f; _device_status := _device_status f |}.

Definition set_observer_task (t : option nat) (f : Fan) : Fan :=
  {| _host := _host f; _model := _model f; _name := _name f; _icon := _icon f;
     _available := _available f; _state := _state f; _unique_id := _unique_id f;
     _device_state := _device_state f; _client := _client f;
     _observer_task := Some t; _device_status := _device_status f |}.

Definition set_device_status (s : Status) (f : Fan) : Fan :=
  {| _host := _host f; _model := _model f; _name := _name f; _icon := _icon f;
     _available := _available f; _state := _state f; _unique_id := _unique_id f;
     _device_state := _device_state f; _client := _client f;
     _observer_task := _observer_task f; _device_status := Some s |}.

(** ** The world around the entity *)

(** [self] is the entity object, [tasks] the tasks created on the event
    loop so far, [sent] the control values handed to the client, and
    [ha_updates] counts the calls of [schedule_update_ha_state]. *)
Record World : Type := mkWorld {
  self : Fan;
  tasks : list Task;
  sent : list (string * string);
  ha_updates : nat;
}.

(** What the device and the network answer: the outcome of
    [CoAPClient.create(host)], of [client.get_status()], and of
    [client.set_control_value(key, value)] after the commands already sent
    ([None]: acknowledged). *)
Record Env : Type := mkEnv {
  env_create : string → result Client;
  env_get_status : Client → result Status;
  env_set_control : list (string * string) → string → string → option exn;
}.

(** ** Coroutines: state and exceptions *)

Definition M (A : Type) : Type := World → result A * World.

Global Instance result_ret : MRet result := λ A a, Ok a.
Global Instance result_bind : MBind result := λ A B k r,
  match r with
  | Ok a => k a
  | Raise e => Raise e
  end.

Global Instance M_ret : MRet M := λ A a w, (Ok a, w).
Global Instance M_bind : MBind M := λ A B k m w,
  match m w with
  | (Ok a, w') => k a w'
  | (Raise e, w') => (Raise e, w')
  end.

Definition raise {A} (e : exn) : M A := λ w, (Raise e, w).

Definition lift {A} (r : result A) : M A := λ w, (r, w).

Definition get_self : M Fan := λ w, (Ok (self w), w).

Definition modify_self (g : Fan → Fan) : M unit := λ w,
  (Ok (), {| self := g (self w); tasks := tasks w; sent := sent w;
             ha_updates := ha_updates w |}).

(** [self.attr] for an attribute that may be missing. *)
Definition getattr {A} (attr : string) (proj : Fan → option A) : M A := λ w,
  match proj (self w) with
  | Some a => (Ok a, w)
  | None => (Raise (AttributeError attr), w)
  end.

(** [try: body  except Exception as e: handler e]; what [body] wrote
    before it raised stays written. *)
Definition try_except {A} (body : M A) (handler : exn → M A) : M A := λ w,
  match body w with
  | (Ok a, w') => (Ok a, w')
  | (Raise e, w') => if is_Exception e then handler e w' else (Raise e, w')
  end.

(** [status[key]] *)
Definition subscript (status : Status) (key : string) : result value :=
  match status !! key with
  | Some v => Ok v
  | None => Raise (KeyError key)
  end.

(** [asyncio.create_task]: the new task's index is its handle. *)
Definition create_task (t : Task) : M nat := λ w,
  (Ok (length (tasks w)),
   {| self := self w; tasks := tasks w ++ [t]; sent := sent w;
      ha_updates := ha_updates w |}).

(** [Entity.schedule_update_ha_state] of the host framework. *)
Definition schedule_update_ha_state : M unit := λ w,
  (Ok (), {| self := self w; tasks := tasks w; sent := sent w;
             ha_updates := S (ha_updates w) |}).

(** ** The program *)

Section Program.
Context `{Const}.
Variable env : Env.

(** *** class PhilipsGenericFan / PhilipsGenericCoAPFan *)

(** [__init__] of [PhilipsGenericCoAPFan], which runs the one of
    [PhilipsGenericFan] first and then binds [_device_state] (sic) to an
    empty dict.  [_client], [_observer_task] and [_device_status] are not
    assigned here. *)
Definition PhilipsGenericCoAPFan_new (host model name icon : string) : Fan :=
  {| _host := host; _model := model; _name := name; _icon := icon;
     _available := false; _state := None; _unique_id := None;
     _device_state := ∅; _client := None; _observer_task := None;
     _device_status := None |}.

Definition unique_id (f : Fan) : option string := _unique_id f.
Definition name (f : Fan) : string := _name f.
Definition icon (f : Fan) : string := _icon f.
Definition available (f : Fan) : bool := _available f.
Definition should_poll (f : Fan) : bool := false.
Definition is_on (f : Fan) : option bool := _state f.

(** [client.get_status()] *)
Definition get_status (c : Client) : M Status := lift (env_get_status env c).

(** [client.set_control_value(key, value)] *)
Definition set_control_value (key val : string) : M unit := λ w,
  match _client (self w) with
  | None => (Raise (AttributeError "_client"), w)
  | Some _ =>
      let w' := {| self := self w; tasks := tasks w;
                   sent := sent w ++ [(key, val)];
                   ha_updates := ha_updates w |} in
      match env_set_control env (sent w) key val with
      | None => (Ok (), w')
      | Some e => (Raise e, w')
      end
  end.

(** [PhilipsGenericCoAPFan.init] *)
Definition init : M unit :=
  f ← get_self;
  client ← lift (env_create env (_host f));
  modify_self (set_client client);;
  modify_self (set_observer_task None);;
  try_except
    (status ← get_status client;
     device_id ← lift (subscript status PHILIPS_DEVICE_ID);
     f ← get_self;
     modify_self (set_unique_id (Some (_model f +:+ "-" +:+ py_format device_id))))
    (λ e, raise PlatformNotReady).

(** The first step of the coroutine [_observe_status]: it evaluates
    [self._client.observe_status()], then waits for the stream. *)
Definition _observe_status_start (f : Fan) : Task :=
  match _client f with
  | Some _ => Running
  | None => Finished (Some (AttributeError "_client"))
  end.

(** [PhilipsGenericCoAPFan.async_added_to_hass] *)
Definition async_added_to_hass : M unit :=
  f ← get_self;
  t ← create_task (_observe_status_start f);
  modify_self (set_observer_task (Some t)).

(** [PhilipsGenericFan.async_will_remove_from_hass], which no subclass
    overrides: [pass]. *)
Definition async_will_remove_from_hass : M unit := mret ().

(** [PhilipsGenericCoAPFan._update_status] *)
Definition _update_status (status : Status) : M unit :=
  modify_self (set_available true);;
  modify_self (set_state (Some (py_eq_str (status !! PHILIPS_POWER) "1")));;
  modify_self (set_device_status status);;
  schedule_update_ha_state.

(** The body of the [async for] of [_observe_status], over the snapshots
    the stream yields. *)
Fixpoint _observe_status (stream : list Status) : M unit :=
  match stream with
  | [] => mret ()
  | status :: rest => _update_status status;; _observe_status rest
  end.

(** *** device_state_attributes *)

(** The optional third component of a row of the attribute table. *)
Inductive value_map : Type :=
  | MapDict (m : gmap value value)
  | MapCallable (g : value → result value).

(** [lambda x: str(timedelta(seconds=round(x / 1000)))]: dividing a string
    raises [TypeError]. *)
Definition runtime_lambda (x : value) : result value :=
  match x with
  | VInt n => s ← runtime_seconds n; Ok (VStr s)
  | VStr _ => Raise TypeError
  end.

(** The local function [append], closed over [self]. *)
Definition append (f : Fan) (attributes : gmap string value)
    (key philips_key : string) (vm : option value_map)
    : result (gmap string value) :=
  match _device_status f with
  | None => Raise (AttributeError "_device_status")
  | Some device_status =>
      match device_status !! philips_key with
      | Some val =>
          val' ← match vm with
                 | Some (MapDict m) =>
                     match m !! val with
                     | Some mapped => Ok mapped
                     | None => Ok val
                     end
                 | Some (MapCallable g) => g val
                 | None => Ok val
                 end;
          Ok (<[key := val']> attributes)
      | None => Ok attributes
      end
  end.

(** The tuple [attributes]: rows [(key, philips_key, *rest)]. *)
Definition attributes : list (string * string * list value_map) :=
  [ (ATTR_AIR_QUALITY_INDEX, PHILIPS_AIR_QUALITY_INDEX, []);
    (ATTR_CHILD_LOCK, PHILIPS_CHILD_LOCK, []);
    (ATTR_DEVICE_ID, PHILIPS_DEVICE_ID, []);
    (ATTR_DEVICE_VERSION, PHILIPS_DEVICE_VERSION, []);
    (ATTR_DISPLAY_BACKLIGHT, PHILIPS_DISPLAY_BACKLIGHT,
       [MapDict PHILIPS_DISPLAY_BACKLIGHT_MAP]);
    (ATTR_INDOOR_ALLERGEN_INDEX, PHILIPS_INDOOR_ALLERGEN_INDEX, []);
    (ATTR_LANGUAGE, PHILIPS_LANGUAGE, []);
    (ATTR_LIGHT_BRIGHTNESS, PHILIPS_LIGHT_BRIGHTNESS, []);
    (ATTR_MODEL_ID, PHILIPS_MODEL_ID, []);
    (ATTR_NAME, PHILIPS_NAME, []);
    (ATTR_PM25, PHILIPS_PM25, []);
    (ATTR_PREFERRED_INDEX, PHILIPS_PREFERRED_INDEX,
       [MapDict PHILIPS_PREFERRED_INDEX_MAP]);
    (ATTR_PRODUCT_ID, PHILIPS_PRODUCT_ID, []);
    (ATTR_RUNTIME, PHILIPS_RUNTIME, [MapCallable runtime_lambda]);
    (ATTR_SOFTWARE_VERSION, PHILIPS_SOFTWARE_VERSION, []);
    (ATTR_TOTAL_VOLATILE_ORGANIC_COMPOUNDS,
       PHILIPS_TOTAL_VOLATILE_ORGANIC_COMPOUNDS, []);
    (ATTR_TYPE, PHILIPS_TYPE, []);
    (ATTR_WIFI_VERSION, PHILIPS_WIFI_VERSION, []) ].

(** The [for] loop over the rows; [head rest] is
    [rest[0] if len(rest) else None]. *)
Fixpoint attributes_loop (f : Fan)
    (rows : list (string * string * list value_map))
    (device_attributes : gmap string value) : result (gmap string value) :=
  match rows with
  | [] => Ok device_attributes
  | (key, philips_key, rest) :: rows' =>
      device_attributes' ← append f device_attributes key philips_key (head rest);
      attributes_loop f rows' device_attributes'
  end.

(** [PhilipsGenericCoAPFan.device_state_attributes] *)
Definition device_state_attributes (f : Fan) : result (gmap string value) :=
  attributes_loop f attributes ∅.

(** *** Commands *)

(** [PhilipsGenericCoAPFan.async_turn_off] *)
Definition async_turn_off : M unit := set_control_value PHILIPS_POWER "0".

(** [async_turn_on()] with [speed] left at [None], the only way
    [async_set_speed] calls it. *)
Definition async_turn_on_default : M unit := set_control_value PHILIPS_POWER "1".

(** [PhilipsAC4236.async_set_speed] *)
Definition async_set_speed (speed : string) : M unit :=
  if bool_decide (speed = SPEED_OFF) then async_turn_off
  else
    f ← get_self;
    (if negb (default false (is_on f)) then async_turn_on_default else mret ());;
    if bool_decide (speed = SPEED_1) then set_control_value PHILIPS_SPEED "1"
    else if bool_decide (speed = SPEED_2) then set_control_value PHILIPS_SPEED "2"
    else if bool_decide (speed = SPEED_MODE_AUTO) then set_control_value PHILIPS_MODE "AG"
    else if bool_decide (speed = SPEED_MODE_SLEEP) then set_control_value PHILIPS_MODE "S"
    else if bool_decide (speed = SPEED_MODE_TURBO) then set_control_value PHILIPS_MODE "T"
    else mret ().

(** [PhilipsGenericCoAPFan.async_turn_on] *)
Definition async_turn_on (speed : option string) : M unit :=
  match speed with
  | None => set_control_value PHILIPS_POWER "1"
  | Some s =>
      if bool_decide (s = SPEED_OFF) then async_turn_off else async_set_speed s
  end.

(** *** class PhilipsAC4236 *)

Definition SPEED_LIST : list string :=
  [SPEED_OFF; SPEED_1; SPEED_2; SPEED_MODE_AUTO; SPEED_MODE_SLEEP; SPEED_MODE_TURBO].

Definition speed_list (f : Fan) : list string := SPEED_LIST.

(** [PhilipsAC4236.speed]; falling off the end of the chain returns
    [None]. *)
Definition speed (f : Fan) : result (option string) :=
  match _device_status f with
  | None => Raise (AttributeError "_device_status")
  | Some device_status =>
      let power := device_status !! PHILIPS_POWER in
      let mode := device_status !! PHILIPS_MODE in
      let speed := device_status !! PHILIPS_SPEED in
      if py_eq_str power "0" then Ok (Some SPEED_OFF)
      else if py_eq_str mode "M" && py_eq_str speed "1" then Ok (Some SPEED_1)
      else if py_eq_str mode "M" && py_eq_str speed "2" then Ok (Some SPEED_2)
      else if py_eq_str mode "AG" then Ok (Some SPEED_MODE_AUTO)
      else if py_eq_str mode "S" then Ok (Some SPEED_MODE_SLEEP)
      else if py_eq_str mode "T" then Ok (Some SPEED_MODE_TURBO)
      else Ok None
  end.

(** *** async_setup_platform *)

Record Config : Type := mkConfig {
  CONF_HOST : string;
  CONF_MODEL : string;
  CONF_NAME : string;
  CONF_ICON : string;
}.

(** What a run of [async_setup_platform] leaves behind: what the call
    returned or raised, the device object it built (if any) with the world
    around it, and the entities handed to [async_add_entities]. *)
Record Setup : Type := mkSetup {
  returned : result (option bool);
  device : option World;
  added : list Fan;
}.

Definition new_world (f : Fan) : World :=
  {| self := f; tasks := []; sent := []; ha_updates := 0 |}.

(** [model_to_class.get(model)]: the table has the one entry
    [MODEL_AC4236: PhilipsAC4236]. *)
Definition model_to_class (model : string)
    : option (string → string → string → string → Fan) :=
  if bool_decide (model = MODEL_AC4236) then Some PhilipsGenericCoAPFan_new
  else None.

Definition async_setup_platform (config : Config) : Setup :=
  let host := CONF_HOST config in
  let model := CONF_MODEL config in
  let name := CONF_NAME config in
  let icon := CONF_ICON config in
  match model_to_class model with
  | Some model_class =>
      let device := model_class host model name icon in
      match init (new_world device) with
      | (Ok _, w) =>
          {| returned := Ok None; device := Some w; added := [self w] |}
      | (Raise e, w) =>
          {| returned := Raise e; device := Some w; added := [] |}
      end
  | None =>
      {| returned := Ok (Some false); device := None; added := [] |}
  end.

(** ** The life of an entity *)

(** The host framework calls the entity's coroutines; the client's observe
    stream of task [t] yields a snapshot, or ends ([Some e]: by raising
    [e]). *)
Inductive call : Type :=
  | AddedToHass
  | WillRemoveFromHass
  | TurnOn (speed : option string)
  | TurnOff
  | SetSpeed (speed : string).

Inductive event : Type :=
  | HostCall (c : call)
  | StreamYield (t : nat) (status : Status)
  | StreamEnd (t : nat) (e : option exn).

Definition run_call (c : call) : M unit :=
  match c with
  | AddedToHass => async_added_to_hass
  | WillRemoveFromHass => async_will_remove_from_hass
  | TurnOn s => async_turn_on s
  | TurnOff => async_turn_off
  | SetSpeed s => async_set_speed s
  end.

Definition task_running (t : nat) (w : World) : bool :=
  match tasks w !! t with
  | Some Running => true
  | _ => false
  end.

Definition finish_task (t : nat) (e : option exn) (w : World) : World :=
  {| self := self w; tasks := <[t := Finished e]> (tasks w); sent := sent w;
     ha_updates := ha_updates w |}.

(** One event.  A snapshot is consumed by [_update_status] when its task
    is still iterating the stream; an exception of a host call goes to the
    caller and leaves the world as the call left it. *)
Definition step (w : World) (ev : event) : World :=
  match ev with
  | HostCall c => snd (run_call c w)
  | StreamYield t status =>
      if task_running t w then snd (_update_status status w) else w
  | StreamEnd t e =>
      if task_running t w then finish_task t e w else w
  end.

Definition run (w : World) (evs : list event) : World := foldl step w evs.

(** The snapshots that [_update_status] consumes along a run, oldest
    first. *)
Fixpoint consumed (w : World) (evs : list event) : list Status :=
  match evs with
  | [] => []
  | ev :: evs' =>
      match ev with
      | StreamYield t status => if task_running t w then [status] else []
      | _ => []
      end ++ consumed (step w ev) evs'
  end.

End Program.

(** ** A sample valuation

    const.py is not among the sources.  The valuation below gives every
    name a value so that the model can be evaluated on concrete inputs; no
    general statement depends on it. *)
Module Sample.

Definition pad2 (n : Z) : string :=
  if (n <? 10)%Z then "0" +:+ pretty n else pretty n.

(** [round(n / 1000)], ties to even, as long as [n / 1000] is exact
    enough as a float (below 2^53). *)
Definition round_milli (n : Z) : Z :=
  let q := (n `div` 1000)%Z in
  let r := (n `mod` 1000)%Z in
  if (r <? 500)%Z then q
  else if (500 <? r)%Z then (q + 1)%Z
  else if Z.even q then q else (q + 1)%Z.

(** [str(timedelta(seconds=s))] *)
Definition timedelta_str (s : Z) : result string :=
  let days := (s `div` 86400)%Z in
  let secs := (s `mod` 86400)%Z in
  if (999999999 <? Z.abs days)%Z then Raise OverflowError
  else
    let hms := pretty (secs `div` 3600)%Z +:+ ":"
               +:+ pad2 ((secs `div` 60) `mod` 60)%Z +:+ ":"
               +:+ pad2 (secs `mod` 60)%Z in
    if bool_decide (days = 0%Z) then Ok hms
    else Ok (pretty days +:+ " day"
             +:+ (if bool_decide (Z.abs days = 1%Z) then "" else "s")
             +:+ ", " +:+ hms).

Definition backlight_map : gmap value value :=
  {[ VStr "0" := VStr "Off"; VStr "1" := VStr "On" ]}.

Definition preferred_index_map : gmap value value :=
  {[ VStr "0" := VStr "Indoor Allergen Index"; VStr "1" := VStr "PM2.5" ]}.

Definition const : Const := {|
  ATTR_AIR_QUALITY_INDEX := "air_quality_index";
  ATTR_CHILD_LOCK := "child_lock";
  ATTR_DEVICE_ID := "device_id";
  ATTR_DEVICE_VERSION := "device_version";
  ATTR_DISPLAY_BACKLIGHT := "display_backlight";
  ATTR_INDOOR_ALLERGEN_INDEX := "indoor_allergen_index";
  ATTR_LANGUAGE := "language";
  ATTR_LIGHT_BRIGHTNESS := "light_brightness";
  ATTR_MODEL_ID := "model_id";
  ATTR_NAME := "name";
  ATTR_PM25 := "pm25";
  ATTR_PREFERRED_INDEX := "preferred_index";
  ATTR_PRODUCT_ID := "product_id";
  ATTR_RUNTIME := "runtime";
  ATTR_SOFTWARE_VERSION := "software_version";
  ATTR_TOTAL_VOLATILE_ORGANIC_COMPOUNDS := "total_volatile_organic_compounds";
  ATTR_TYPE := "type";
  ATTR_WIFI_VERSION := "wifi_version";
  MODEL_AC4236 := "AC4236";
  PHILIPS_AIR_QUALITY_INDEX := "aqit";
  PHILIPS_CHILD_LOCK := "cl";
  PHILIPS_DEVICE_ID := "DeviceId";
  PHILIPS_DEVICE_VERSION := "DeviceVersion";
  PHILIPS_DISPLAY_BACKLIGHT := "uil";
  PHILIPS_DISPLAY_BACKLIGHT_MAP := backlight_map;
  PHILIPS_INDOOR_ALLERGEN_INDEX := "iaql";
  PHILIPS_LANGUAGE := "language";
  PHILIPS_LIGHT_BRIGHTNESS := "aqil";
  PHILIPS_MODE := "mode";
  PHILIPS_MODEL_ID := "modelid";
  PHILIPS_NAME := "name";
  PHILIPS_PM25 := "pm25";
  PHILIPS_POWER := "pwr";
  PHILIPS_PREFERRED_INDEX := "ddp";
  PHILIPS_PREFERRED_INDEX_MAP := preferred_index_map;
  PHILIPS_PRODUCT_ID := "ProductId";
  PHILIPS_RUNTIME := "Runtime";
  PHILIPS_SOFTWARE_VERSION := "swversion";
  PHILIPS_SPEED := "om";
  PHILIPS_TOTAL_VOLATILE_ORGANIC_COMPOUNDS := "tvoc";
  PHILIPS_TYPE := "type";
  PHILIPS_WIFI_VERSION := "WifiVersion";
  SPEED_OFF := "off";
  SPEED_1 := "1";
  SPEED_2 := "2";
  SPEED_MODE_AUTO := "auto";
  SPEED_MODE_SLEEP := "sleep";
  SPEED_MODE_TURBO := "turbo";
  runtime_seconds := λ n, timedelta_str (round_milli n);
|}.

(** The first snapshot of a device, as in the scenario of the
    specification. *)
Definition first_status : Status :=
  {[ "DeviceId" := VStr "AC4236-001"; "pwr" := VStr "1";
     "mode" := VStr "M"; "om" := VStr "2" ]}.

(** A reachable device that answers the first fetch with [first_status]
    and acknowledges every command. *)
Definition env : Env :=
  {| env_create := λ host, Ok (mkClient host);
     env_get_status := λ _, Ok first_status;
     env_set_control := λ _ _ _, None |}.

(** A host that cannot be reached. *)
Definition env_unreachable : Env :=
  {| env_create := λ host, Raise (ClientError "unreachable");
     env_get_status := λ _, Ok first_status;
     env_set_control := λ _ _ _, None |}.

Definition config : Config :=
  {| CONF_HOST := "10.0.0.5"; CONF_MODEL := "AC4236";
     CONF_NAME := "Philips Air Purifier"; CONF_ICON := "mdi:air-purifier" |}.

(** The entity as its constructor leaves it. *)
Definition fresh : World :=
  new_world (PhilipsGenericCoAPFan_new
    "10.0.0.5" "AC4236" "Philips Air Purifier" "mdi:air-purifier").

(** The entity after a successful setup. *)
Definition ready : World :=
  snd (init (H := const) env (new_world (PhilipsGenericCoAPFan_new
         "10.0.0.5" "AC4236" "Philips Air Purifier" "mdi:air-purifier"))).

(** A later snapshot: the device switched off. *)
Definition off_status : Status :=
  {[ "DeviceId" := VStr "AC4236-001"; "pwr" := VStr "0";
     "mode" := VStr "AG"; "Runtime" := VInt 3723500 ]}.

(** A snapshot whose runtime is carried as a string. *)
Definition text_runtime_status : Status :=
  {[ "pwr" := VStr "1"; "Runtime" := VStr "3723500" ]}.

Definition with_status (s : Status) : Fan :=
  set_device_status s (PhilipsGenericCoAPFan_new
    "10.0.0.5" "AC4236" "Philips Air Purifier" "mdi:air-purifier").

(** A device that rejects every command. *)
Definition env_rejecting : Env :=
  {| env_create := λ host, Ok (mkClient host);
     env_get_status := λ _, Ok first_status;
     env_set_control := λ _ _ _, Some (ClientError "rejected") |}.

(** A configuration that names a model outside the dispatch table. *)
Definition config_unsupported : Config :=
  {| CONF_HOST := "10.0.0.5"; CONF_MODEL := "AC9999";
     CONF_NAME := "Philips Air Purifier"; CONF_ICON := "mdi:air-purifier" |}.

(** A snapshot of keys the attribute table does not know. *)
Definition unknown_keys_status : Status :=
  {[ "pwr" := VStr "1"; "wl" := VInt 100; "fltsts0" := VInt 287 ]}.



(** The first snapshot of a second device. *)
Definition second_status : Status :=
  {[ "DeviceId" := VStr "AC4236-002"; "pwr" := VStr "0"; "mode" := VStr "AG" ]}.

(** Two reachable devices, each answering with its own first snapshot. *)
Definition env_two_devices : Env :=
  {| env_create := λ host, Ok (mkClient host);
     env_get_status := λ c,
       if bool_decide (client_host c = "10.0.0.6") then Ok second_status
       else Ok first_status;
     env_set_control := λ _ _ _, None |}.

(** The entity of the second device, as its constructor leaves it. *)
Definition fresh_second : World :=
  new_world (PhilipsGenericCoAPFan_new
    "10.0.0.6" "AC4236" "Bedroom Air Purifier" "mdi:air-purifier").

End Sample.


(** * Properties *)

Section Properties.
Context `{Const}.
Variable env : Env.

(** ** Vocabulary of the statements *)

(** A coroutine that leaves the entity object and the tasks alone. *)
Definition keeps {A} (m : M A) : Prop :=
  ∀ w, self (snd (m w)) = self w ∧ tasks (snd (m w)) = tasks w.

(** The fields of the cache: availability, on/off state, identity and
    status. *)
Definition cache (f : Fan) : bool * option bool * option string * option Status :=
  (_available f, _state f, _unique_id f, _device_status f).

(** The cache after a run, from the snapshots consumed on the way. *)
Definition cache_after (c : bool * option bool * option string * option Status)
    (seen : list Status) : bool * option bool * option string * option Status :=
  match last seen with
  | Some status =>
      (true, Some (py_eq_str (status !! PHILIPS_POWER) "1"), c.1.2, Some status)
  | None => c
  end.

(** The world with its entity object rewritten. *)
Definition map_self (g : Fan → Fan) (w : World) : World :=
  {| self := g (self w); tasks := tasks w; sent := sent w;
     ha_updates := ha_updates w |}.

(** The value [append] stores for a raw value [val]. *)
Definition mapped (vm : option value_map) (val : value) : result value :=
  match vm with
  | Some (MapDict m) => Ok (default val (m !! val))
  | Some (MapCallable g) => g val
  | None => Ok val
  end.

(** A row that cannot raise on [status]. *)
Definition row_ok (status : Status) (row : string * string * list value_map) : Prop :=
  ∀ val, status !! row.1.2 = Some val → is_Ok (mapped (head row.2) val) = true.

(** The command that the [if]/[elif] chain at the end of
    [async_set_speed] selects for a speed name, if any. *)
Definition speed_command (speed : string) : option (string * string) :=
  if bool_decide (speed = SPEED_1) then Some (PHILIPS_SPEED, "1")
  else if bool_decide (speed = SPEED_2) then Some (PHILIPS_SPEED, "2")
  else if bool_decide (speed = SPEED_MODE_AUTO) then Some (PHILIPS_MODE, "AG")
  else if bool_decide (speed = SPEED_MODE_SLEEP) then Some (PHILIPS_MODE, "S")
  else if bool_decide (speed = SPEED_MODE_TURBO) then Some (PHILIPS_MODE, "T")
  else None.

(** What [async_set_speed] sends first: the power-on of
    [async_turn_on()], unless the entity is known to be on. *)
Definition power_on_first (f : Fan) : list (string * string) :=
  if default false (is_on f) then [] else [(PHILIPS_POWER, "1")].

(** The device acknowledges every command. *)
Definition acknowledges : Prop :=
  ∀ log key val, env_set_control env log key val = None.

(** A coroutine that only adds to the log of sent commands and schedules
    no state update. *)
Definition appends {A} (m : M A) : Prop :=
  ∀ w, (∃ l : list (string * string), sent (snd (m w)) = (sent w ++ l)%list)
       ∧ ha_updates (snd (m w)) = ha_updates w.

(** ** Coroutines that leave the entity object and the tasks alone *)

Lemma keeps_ret {A} (a : A) : keeps (mret a).
Proof. by intros w. Qed.

Lemma keeps_bind {A B} (m : M A) (k : A → M B) :
  keeps m → (∀ a, keeps (k a)) → keeps (m ≫= k).
Proof.
  intros Hm Hk w. unfold mbind, M_bind.
  destruct (Hm w) as [Hs Ht]. destruct (m w) as [[a|e] w1]; simpl in *.
  - destruct (Hk a w1) as [Hs' Ht']. by rewrite Hs', Ht'.
  - done.
Qed.

Lemma keeps_get_self : keeps get_self.
Proof. by intros w. Qed.

Lemma keeps_set_control_value key val : keeps (set_control_value env key val).
Proof.
  intros w. unfold set_control_value.
  destruct (_client (self w)); [|done].
  by destruct (env_set_control env (sent w) key val).
Qed.

Lemma keeps_async_turn_off : keeps (async_turn_off env).
Proof. apply keeps_set_control_value. Qed.

Lemma keeps_async_set_speed s : keeps (async_set_speed env s).
Proof.
  unfold async_set_speed. case_bool_decide; [apply keeps_async_turn_off|].
  apply keeps_bind; [apply keeps_get_self|]. intros f.
  apply keeps_bind.
  { destruct (negb _); [apply keeps_set_control_value | apply keeps_ret]. }
  intros _.
  repeat case_bool_decide;
    first [apply keeps_set_control_value | apply keeps_ret].
Qed.

Lemma keeps_async_turn_on s : keeps (async_turn_on env s).
Proof.
  destruct s as [s|]; simpl; [|apply keeps_set_control_value].
  case_bool_decide; [apply keeps_async_turn_off | apply keeps_async_set_speed].
Qed.

(** ** What one event does to the cached fields *)

Lemma run_call_cache c w : cache (self (snd (run_call env c w))) = cache (self w).
Proof.
  destruct c as [| |s| |s]; simpl; try done.
  - by destruct (keeps_async_turn_on s w) as [-> _].
  - by destruct (keeps_async_turn_off w) as [-> _].
  - by destruct (keeps_async_set_speed s w) as [-> _].
Qed.

Lemma update_status_world status w :
  _update_status status w
  = (Ok (),
     {| self := set_device_status status
                  (set_state (Some (py_eq_str (status !! PHILIPS_POWER) "1"))
                     (set_available true (self w)));
        tasks := tasks w; sent := sent w; ha_updates := S (ha_updates w) |}).
Proof. reflexivity. Qed.

Lemma py_eq_str_spec o s : py_eq_str o s = bool_decide (o = Some (VStr s)).
Proof.
  destruct o as [[t|n]|]; unfold py_eq_str.
  - apply bool_decide_ext. split; [by intros -> | by intros [= ->]].
  - symmetry. by apply bool_decide_eq_false_2.
  - symmetry. by apply bool_decide_eq_false_2.
Qed.

Lemma step_cache w ev :
  cache (self (step env w ev))
  = match ev with
    | StreamYield t status =>
        if task_running t w
        then (true, Some (py_eq_str (status !! PHILIPS_POWER) "1"),
              _unique_id (self w), Some status)
        else cache (self w)
    | _ => cache (self w)
    end.
Proof.
  destruct ev as [c|t status|t e]; simpl.
  - apply run_call_cache.
  - by destruct (task_running t w).
  - by destruct (task_running t w).
Qed.

Lemma run_cache evs : ∀ w,
  cache (self (run env w evs)) = cache_after (cache (self w)) (consumed env w evs).
Proof.
  induction evs as [|ev evs IH]; intros w; [done|].
  change (run env w (ev :: evs)) with (run env (step env w ev) evs).
  rewrite IH. cbn [consumed]. unfold cache_after. rewrite last_app.
  rewrite step_cache.
  destruct (last (consumed env (step env w ev) evs)) as [s|].
  - f_equal. f_equal. destruct ev as [c|t status|t e]; try done.
    by destruct (task_running t w).
  - destruct ev as [c|t status|t e]; try done.
    by destruct (task_running t w).
Qed.

(** ** What [init] does *)

(** [init], outcome by outcome of the two network calls. *)
Lemma init_cases w :
  init env w
  = match env_create env (_host (self w)) with
    | Raise e => (Raise e, w)
    | Ok c =>
        let w1 := map_self (set_observer_task None) (map_self (set_client c) w) in
        match env_get_status env c with
        | Raise e => (Raise (if is_Exception e then PlatformNotReady else e), w1)
        | Ok status =>
            match status !! PHILIPS_DEVICE_ID with
            | None => (Raise PlatformNotReady, w1)
            | Some device_id =>
                (Ok (), map_self (set_unique_id
                           (Some (_model (self w) +:+ "-" +:+ py_format device_id))) w1)
            end
        end
    end.
Proof.
  unfold init, mbind, M_bind, get_self, lift, try_except, get_status, subscript.
  simpl. destruct (env_create env (_host (self w))) as [c|e]; [|done].
  simpl. destruct (env_get_status env c) as [status|e]; simpl.
  - by destruct (status !! PHILIPS_DEVICE_ID).
  - by destruct (is_Exception e).
Qed.

(** [init] writes [_client], [_observer_task] and [_unique_id] only, and
    [_unique_id] only when it succeeds. *)
Lemma init_cache w :
  cache (self (snd (init env w)))
  = match fst (init env w) with
    | Ok _ => (_available (self w), _state (self w),
               _unique_id (self (snd (init env w))), _device_status (self w))
    | Raise _ => cache (self w)
    end.
Proof.
  rewrite init_cases.
  destruct (env_create env (_host (self w))) as [c|e]; [|done].
  simpl. destruct (env_get_status env c) as [status|e]; [|done].
  by destruct (status !! PHILIPS_DEVICE_ID).
Qed.

Lemma setup_cases config :
  async_setup_platform env config
  = if bool_decide (CONF_MODEL config = MODEL_AC4236) then
      let w0 := new_world (PhilipsGenericCoAPFan_new (CONF_HOST config)
                  (CONF_MODEL config) (CONF_NAME config) (CONF_ICON config)) in
      match fst (init env w0) with
      | Ok _ => {| returned := Ok None; device := Some (snd (init env w0));
                   added := [self (snd (init env w0))] |}
      | Raise e => {| returned := Raise e; device := Some (snd (init env w0));
                      added := [] |}
      end
    else {| returned := Ok (Some false); device := None; added := [] |}.
Proof.
  unfold async_setup_platform, model_to_class.
  case_bool_decide; [|done]. simpl.
  by destruct (init env _) as [[[]|e] w1].
Qed.

(** ** The cached status and the observe loop *)

Lemma observe_status_snoc stream status w :
  _observe_status (stream ++ [status]) w
  = _update_status status (snd (_observe_status stream w)).
Proof.
  revert w. induction stream as [|s stream IH]; intros w.
  - reflexivity.
  - cbn [app _observe_status]. unfold mbind, M_bind.
    rewrite (update_status_world s w). apply IH.
Qed.

(** C1, as the code has it: [init] does not keep the snapshot it fetches
    (it only derives [unique_id] from it).  For a session whose
    initialization succeeded, as long as no observe update has been
    consumed the cached device status is what it was before [init],
    whatever the first fetch returned; once observe updates have been
    consumed it is the most recently consumed snapshot. *)
Theorem init_does_not_cache_status w0 w1 evs :
  init env w0 = (Ok (), w1) →
  _device_status (self (run env w1 evs))
  = match last (consumed env w1 evs) with
    | Some status => Some status
    | None => _device_status (self w0)
    end.
Proof.
  intros Hinit.
  pose proof (run_cache evs w1) as Hrun.
  pose proof (init_cache w0) as Hcache. rewrite Hinit in Hcache. simpl in Hcache.
  unfold cache_after in Hrun.
  destruct (last (consumed env w1 evs)) as [status|].
  - by injection Hrun.
  - rewrite Hcache in Hrun. by injection Hrun.
Qed.

(** C2, as the code has it: removing the entity from the host does not
    stop the observe loop.  [async_will_remove_from_hass] returns without
    touching the entity, its observer task or its client, so it is
    idempotent, and a snapshot that the stream of a running task yields
    afterwards is still consumed and cached. *)
Theorem will_remove_keeps_observing w t status :
  task_running t w = true →
  async_will_remove_from_hass w = (Ok (), w)
  ∧ run env w [HostCall WillRemoveFromHass; HostCall WillRemoveFromHass]
    = run env w [HostCall WillRemoveFromHass]
  ∧ run env w [HostCall WillRemoveFromHass] = w
  ∧ consumed env w [HostCall WillRemoveFromHass; StreamYield t status] = [status]
  ∧ _device_status
      (self (run env w [HostCall WillRemoveFromHass; StreamYield t status]))
    = Some status
  ∧ task_running t
      (run env w [HostCall WillRemoveFromHass; StreamYield t status]) = true.
Proof.
  intros Hrun. repeat split; try done.
  - simpl. by rewrite Hrun.
  - simpl. by rewrite Hrun.
  - simpl. by rewrite Hrun.
Qed.

(** C3, as the code has it: when the first status fetch raises an
    [Exception], or the fetched snapshot has no device id, [init] raises
    [PlatformNotReady]; when the transport open ([CoAPClient.create])
    raises, [init] raises that exception unchanged, as it does for a
    fetch failure that is no [Exception].  In each of these cases no
    unique_id is set and no entity is added. *)
Theorem init_failure config :
  CONF_MODEL config = MODEL_AC4236 →
  let s := async_setup_platform env config in
  let not_built :=
    added s = [] ∧ ∃ w, device s = Some w ∧ unique_id (self w) = None in
  (∀ e, env_create env (CONF_HOST config) = Raise e →
        returned s = Raise e ∧ not_built)
  ∧ (∀ c e, env_create env (CONF_HOST config) = Ok c →
            env_get_status env c = Raise e →
            returned s = Raise (if is_Exception e then PlatformNotReady else e)
            ∧ not_built)
  ∧ (∀ c status, env_create env (CONF_HOST config) = Ok c →
                 env_get_status env c = Ok status →
                 status !! PHILIPS_DEVICE_ID = None →
                 returned s = Raise PlatformNotReady ∧ not_built).
Proof.
  intros Hmodel s not_built. subst s not_built.
  rewrite setup_cases, bool_decide_eq_true_2 by done.
  cbv zeta. rewrite init_cases. simpl.
  split; [|split].
  - intros e ->. simpl. eauto.
  - intros c e -> ->. simpl. eauto.
  - intros c status -> -> ->. simpl. eauto.
Qed.

(** C4: the identity is derived once, from the first fetched snapshot.
    When initialization succeeds with a first snapshot holding device id
    [D], for the configured model [M], the entity is added with unique_id
    ["M-D"], and no later operation changes it. *)
Theorem unique_id_from_first_snapshot config c status device_id :
  CONF_MODEL config = MODEL_AC4236 →
  env_create env (CONF_HOST config) = Ok c →
  env_get_status env c = Ok status →
  status !! PHILIPS_DEVICE_ID = Some device_id →
  ∃ w, returned (async_setup_platform env config) = Ok None
       ∧ device (async_setup_platform env config) = Some w
       ∧ added (async_setup_platform env config) = [self w]
       ∧ ∀ evs, unique_id (self (run env w evs))
                = Some (CONF_MODEL config +:+ "-" +:+ py_format device_id).
Proof.
  intros Hmodel Hc Hs Hd.
  rewrite setup_cases, bool_decide_eq_true_2 by done.
  cbv zeta. rewrite init_cases. simpl. rewrite Hc. simpl. rewrite Hs, Hd. simpl.
  eexists. repeat split. intros evs.
  pose proof (run_cache evs) as Hrun. unfold cache, cache_after in Hrun.
  specialize (Hrun (map_self
    (set_unique_id (Some (CONF_MODEL config +:+ "-" +:+ py_format device_id)))
    (map_self (set_observer_task None) (map_self (set_client c)
       (new_world (PhilipsGenericCoAPFan_new (CONF_HOST config)
          (CONF_MODEL config) (CONF_NAME config) (CONF_ICON config))))))).
  unfold unique_id.
  match type of Hrun with context [last ?l] => destruct (last l) end;
    by injection Hrun.
Qed.

(** C6: consuming the status stream updates the cache.  For every
    snapshot [T] the observe loop yields, after the update step the cached
    device status is [T] itself, whatever was cached before, the on/off
    state says whether [T]'s power value is ["1"], and the entity is
    available. *)
Theorem update_status_replaces_cache stream status w :
  fst (_update_status status w) = Ok ()
  ∧ _device_status (self (snd (_update_status status w))) = Some status
  ∧ is_on (self (snd (_update_status status w)))
    = Some (bool_decide (status !! PHILIPS_POWER = Some (VStr "1")))
  ∧ available (self (snd (_update_status status w))) = true
  ∧ fst (_observe_status (stream ++ [status]) w) = Ok ()
  ∧ _device_status (self (snd (_observe_status (stream ++ [status]) w)))
    = Some status
  ∧ is_on (self (snd (_observe_status (stream ++ [status]) w)))
    = Some (bool_decide (status !! PHILIPS_POWER = Some (VStr "1")))
  ∧ available (self (snd (_observe_status (stream ++ [status]) w))) = true.
Proof.
  rewrite observe_status_snoc, !update_status_world. simpl.
  unfold is_on, available. simpl. by rewrite py_eq_str_spec.
Qed.

(** C8: availability is monotone.  The entity starts unavailable, [init]
    leaves the flag alone, it is available after a run exactly when the
    run consumed an observed snapshot (or it was available before), and
    once available it stays so whatever follows, the end or failure of a
    stream included. *)
Theorem available_monotone host model name icon w evs evs' :
  available (PhilipsGenericCoAPFan_new host model name icon) = false
  ∧ available (self (snd (init env w))) = available (self w)
  ∧ available (self (run env w evs))
    = available (self w) || bool_decide (consumed env w evs ≠ [])
  ∧ (available (self (run env w evs)) = true →
     available (self (run env w (evs ++ evs'))) = true).
Proof.
  assert (Hrun : ∀ w evs, available (self (run env w evs))
    = available (self w) || bool_decide (consumed env w evs ≠ [])).
  { clear. intros w evs. pose proof (run_cache evs w) as Hrun.
    unfold cache, cache_after in Hrun. unfold available.
    destruct (consumed env w evs) as [|s l] eqn:Hl using rev_ind.
    - simpl in Hrun. injection Hrun as -> _ _ _.
      by rewrite orb_false_r.
    - rewrite last_snoc in Hrun. injection Hrun as -> _ _ _.
      rewrite bool_decide_eq_true_2, orb_true_r; [done|].
      by destruct l. }
  split; [done|]. split.
  { pose proof (init_cache w) as Hc. unfold cache, available in *.
    destruct (fst (init env w)); by injection Hc. }
  split; [apply Hrun|].
  intros Hav. unfold run. rewrite foldl_app. fold (run env w evs).
  fold (run env (run env w evs) evs'). by rewrite Hrun, Hav.
Qed.

(** C9: the on/off state is total.  Before any status has been consumed
    [is_on] is [None]; after a consumed snapshot [T] it is [True] exactly
    when [T] holds the power key with value ["1"], and [False] for a
    missing key or any other value; the update step never raises. *)
Theorem is_on_total host model name icon evs status w :
  let w0 := snd (init env (new_world
              (PhilipsGenericCoAPFan_new host model name icon))) in
  is_on (self (run env w0 evs))
  = match last (consumed env w0 evs) with
    | None => None
    | Some T => Some (bool_decide (T !! PHILIPS_POWER = Some (VStr "1")))
    end
  ∧ fst (_update_status status w) = Ok ()
  ∧ is_on (self (snd (_update_status status w)))
    = Some (bool_decide (status !! PHILIPS_POWER = Some (VStr "1"))).
Proof.
  intros w0. split.
  - pose proof (run_cache evs w0) as Hrun.
    pose proof (init_cache (new_world
      (PhilipsGenericCoAPFan_new host model name icon))) as Hc.
    fold w0 in Hc. unfold cache, cache_after, is_on in *.
    destruct (last (consumed env w0 evs)) as [T|].
    + injection Hrun as _ -> _ _. by rewrite py_eq_str_spec.
    + injection Hrun as _ -> _ _.
      destruct (fst (init env _)); by injection Hc.
  - rewrite update_status_world. unfold is_on. simpl.
    by rewrite py_eq_str_spec.
Qed.

(** ** The speed of the AC4236 *)

(** C7: the translation of the raw status keys to the named speed.  Power
    ["0"] is off, whatever the mode; otherwise mode ["M"] with speed
    ["1"] is speed 1, mode ["M"] with speed ["2"] is speed 2, mode ["AG"]
    is auto, mode ["S"] is sleep and mode ["T"] is turbo. *)
Theorem speed_translation f status :
  _device_status f = Some status →
  (status !! PHILIPS_POWER = Some (VStr "0") → speed f = Ok (Some SPEED_OFF))
  ∧ (status !! PHILIPS_POWER ≠ Some (VStr "0") →
     (status !! PHILIPS_MODE = Some (VStr "M") →
      status !! PHILIPS_SPEED = Some (VStr "1") → speed f = Ok (Some SPEED_1))
     ∧ (status !! PHILIPS_MODE = Some (VStr "M") →
        status !! PHILIPS_SPEED = Some (VStr "2") → speed f = Ok (Some SPEED_2))
     ∧ (status !! PHILIPS_MODE = Some (VStr "AG") →
        speed f = Ok (Some SPEED_MODE_AUTO))
     ∧ (status !! PHILIPS_MODE = Some (VStr "S") →
        speed f = Ok (Some SPEED_MODE_SLEEP))
     ∧ (status !! PHILIPS_MODE = Some (VStr "T") →
        speed f = Ok (Some SPEED_MODE_TURBO))).
Proof.
  intros Hst. unfold speed. rewrite Hst. cbv zeta. split.
  - by intros ->.
  - intros Hpower.
    assert (py_eq_str (status !! PHILIPS_POWER) "0" = false) as ->.
    { rewrite py_eq_str_spec. by apply bool_decide_eq_false_2. }
    repeat split.
    + by intros -> ->.
    + by intros -> ->.
    + by intros ->.
    + by intros ->.
    + by intros ->.
Qed.

(** ** Attribute extraction *)

Lemma append_cases f status d key pk vm :
  _device_status f = Some status →
  append f d key pk vm
  = match status !! pk with
    | Some val =>
        match mapped vm val with
        | Ok v => Ok (<[key := v]> d)
        | Raise e => Raise e
        end
    | None => Ok d
    end.
Proof.
  intros Hst. unfold append. rewrite Hst.
  destruct (status !! pk) as [val|]; [|done].
  destruct vm as [[m|g]|]; simpl; try done.
  by destruct (m !! val).
Qed.

Section Loop.
Variables (f : Fan) (status : Status).
Hypothesis Hstatus : _device_status f = Some status.

Lemma loop_cons key pk rest rows d :
  attributes_loop f ((key, pk, rest) :: rows) d
  = match status !! pk with
    | Some val =>
        match mapped (head rest) val with
        | Ok v => attributes_loop f rows (<[key := v]> d)
        | Raise e => Raise e
        end
    | None => attributes_loop f rows d
    end.
Proof.
  cbn [attributes_loop]. rewrite (append_cases _ status) by done.
  destruct (status !! pk) as [val|]; [|done].
  by destruct (mapped (head rest) val).
Qed.

Lemma loop_total rows : ∀ d,
  Forall (row_ok status) rows → ∃ d', attributes_loop f rows d = Ok d'.
Proof.
  induction rows as [|[[key pk] rest] rows IH]; intros d Hok.
  - by exists d.
  - apply Forall_cons in Hok as [Hrow Hok]. rewrite loop_cons.
    destruct (status !! pk) as [val|] eqn:Hpk; [|by apply IH].
    specialize (Hrow val Hpk). simpl in Hrow.
    destruct (mapped (head rest) val); [by apply IH | done].
Qed.

Lemma loop_notin rows : ∀ d d' key,
  attributes_loop f rows d = Ok d' → key ∉ rows.*1.*1 → d' !! key = d !! key.
Proof.
  induction rows as [|[[k pk] rest] rows IH]; intros d d' key Hloop Hnotin.
  - by injection Hloop as ->.
  - rewrite loop_cons in Hloop. rewrite !fmap_cons in Hnotin. simpl in Hnotin.
    apply not_elem_of_cons in Hnotin as [Hne Hnotin].
    destruct (status !! pk) as [val|]; [|by apply IH].
    destruct (mapped (head rest) val) as [v|e]; [|done].
    rewrite (IH _ _ _ Hloop Hnotin). by rewrite lookup_insert_ne.
Qed.

Lemma loop_in rows : ∀ d d' key pk rest,
  NoDup (rows.*1.*1) →
  attributes_loop f rows d = Ok d' →
  (key, pk, rest) ∈ rows →
  match status !! pk with
  | Some val => ∃ v, mapped (head rest) val = Ok v ∧ d' !! key = Some v
  | None => d' !! key = d !! key
  end.
Proof.
  induction rows as [|[[k0 pk0] rest0] rows IH];
    intros d d' key pk rest Hnodup Hloop Hin.
  - by apply elem_of_nil in Hin.
  - rewrite !fmap_cons in Hnodup. simpl in Hnodup.
    apply NoDup_cons in Hnodup as [Hk0 Hnodup].
    rewrite loop_cons in Hloop.
    apply elem_of_cons in Hin as [[= -> -> ->]|Hin].
    + destruct (status !! pk0) as [val|]; [|by eapply loop_notin].
      destruct (mapped (head rest0) val) as [v|e]; [|done].
      exists v. split; [done|].
      rewrite (loop_notin _ _ _ _ Hloop Hk0). by rewrite lookup_insert_eq.
    + assert (key ≠ k0) as Hne.
      { intros ->. apply Hk0.
        apply list_elem_of_fmap. exists (k0, pk). split; [done|].
        apply list_elem_of_fmap. by exists (k0, pk, rest). }
      destruct (status !! pk0) as [val0|].
      * destruct (mapped (head rest0) val0) as [v0|e]; [|done].
        specialize (IH _ _ _ _ _ Hnodup Hloop Hin).
        destruct (status !! pk); [done|].
        by rewrite IH, lookup_insert_ne.
      * by apply (IH _ _ _ _ _ Hnodup Hloop Hin).
Qed.

(** The first row that raises decides the outcome. *)
Lemma loop_raise rows : ∀ d key pk rest val e,
  Forall (λ row, row_ok status row ∨ row = (key, pk, rest)) rows →
  (key, pk, rest) ∈ rows →
  status !! pk = Some val →
  mapped (head rest) val = Raise e →
  attributes_loop f rows d = Raise e.
Proof.
  induction rows as [|[[k0 pk0] rest0] rows IH];
    intros d key pk rest val e Hall Hin Hpk Hraise.
  - by apply elem_of_nil in Hin.
  - apply Forall_cons in Hall as [Hrow Hall]. rewrite loop_cons.
    destruct Hrow as [Hrow|[= -> -> ->]].
    + apply elem_of_cons in Hin as [[= <- <- <-]|Hin].
      { specialize (Hrow val Hpk). simpl in Hrow. by rewrite Hraise in Hrow. }
      destruct (status !! pk0) as [val0|] eqn:Hpk0; [|by eapply IH].
      specialize (Hrow val0 Hpk0). simpl in Hrow.
      destruct (mapped (head rest0) val0); [by eapply IH | done].
    + by rewrite Hpk, Hraise.
Qed.

End Loop.

(** Only the status keys of the table are read. *)
Lemma loop_ext f f' status status' rows : ∀ d,
  _device_status f = Some status →
  _device_status f' = Some status' →
  (∀ key pk rest, (key, pk, rest) ∈ rows → status' !! pk = status !! pk) →
  attributes_loop f' rows d = attributes_loop f rows d.
Proof.
  intros d Hst Hst'. revert d.
  induction rows as [|[[key pk] rest] rows IH]; intros d Hagree; [done|].
  rewrite (loop_cons f status), (loop_cons f' status') by done.
  rewrite (Hagree key pk rest) by left.
  assert (∀ d, attributes_loop f' rows d = attributes_loop f rows d) as Htail.
  { intros d0. apply IH. intros k p r Hin. eapply Hagree. by right. }
  destruct (status !! pk) as [val|]; [|done].
  by destruct (mapped (head rest) val).
Qed.

(** *** The table of [device_state_attributes] *)

Lemma attributes_rows_ok status :
  (∀ val, status !! PHILIPS_RUNTIME = Some val →
          is_Ok (runtime_lambda val) = true) →
  Forall (row_ok status) attributes.
Proof.
  intros Hrt. unfold attributes.
  repeat apply Forall_cons_2; try apply Forall_nil_2;
    intros val Hval; simpl in *; try done.
  by apply Hrt.
Qed.

Lemma attributes_rows_ok_but_runtime status :
  Forall (λ row, row_ok status row
                 ∨ row = (ATTR_RUNTIME, PHILIPS_RUNTIME,
                          [MapCallable runtime_lambda])) attributes.
Proof.
  unfold attributes.
  repeat apply Forall_cons_2; try apply Forall_nil_2;
    first [ by right | left; intros val Hval; done ].
Qed.

Lemma callable_row key pk g :
  (key, pk, [MapCallable g]) ∈ attributes →
  key = ATTR_RUNTIME ∧ pk = PHILIPS_RUNTIME ∧ g = runtime_lambda.
Proof.
  unfold attributes. rewrite !elem_of_cons, elem_of_nil.
  intros Hin. repeat destruct Hin as [Hin|Hin]; by simplify_eq.
Qed.

Lemma runtime_row :
  (ATTR_RUNTIME, PHILIPS_RUNTIME, [MapCallable runtime_lambda]) ∈ attributes.
Proof. unfold attributes. rewrite !elem_of_cons. tauto. Qed.

(** The extraction returns unless the runtime formatter raises. *)
Lemma attributes_outcome f status :
  _device_status f = Some status →
  match status !! PHILIPS_RUNTIME with
  | Some val =>
      match runtime_lambda val with
      | Ok _ => ∃ d, device_state_attributes f = Ok d
      | Raise e => device_state_attributes f = Raise e
      end
  | None => ∃ d, device_state_attributes f = Ok d
  end.
Proof.
  intros Hst.
  destruct (status !! PHILIPS_RUNTIME) as [val|] eqn:Hval.
  - destruct (runtime_lambda val) as [v|e] eqn:Hg.
    + apply (loop_total f status Hst), attributes_rows_ok.
      intros val' Hval'. rewrite Hval in Hval'. injection Hval' as <-.
      by rewrite Hg.
    + eapply (loop_raise f status Hst); [|apply runtime_row|done|done].
      apply attributes_rows_ok_but_runtime.
  - apply (loop_total f status Hst), attributes_rows_ok.
    intros val' Hval'. by rewrite Hval in Hval'.
Qed.

(** C5, as the code has it: attribute extraction skips absent status
    keys silently.  For every cached status whose runtime value, when
    present, is one the duration formatter accepts, the extraction returns
    a dictionary that has an entry for a named attribute exactly when the
    protocol key of that attribute is in the status (attribute names being
    pairwise distinct); it has no other entries, and status keys outside
    the table are ignored. *)
Theorem attributes_skip_absent_keys f status :
  _device_status f = Some status →
  NoDup (attributes.*1.*1) →
  (∀ val, status !! PHILIPS_RUNTIME = Some val →
          is_Ok (runtime_lambda val) = true) →
  ∃ d, device_state_attributes f = Ok d
       ∧ (∀ key pk rest, (key, pk, rest) ∈ attributes →
            (is_Some (d !! key) ↔ is_Some (status !! pk)))
       ∧ (∀ key, is_Some (d !! key) → key ∈ attributes.*1.*1)
       ∧ (∀ f' status',
            _device_status f' = Some status' →
            (∀ key pk rest, (key, pk, rest) ∈ attributes →
               status' !! pk = status !! pk) →
            device_state_attributes f' = Ok d).
Proof.
  intros Hst Hnodup Hrt.
  destruct (loop_total f status Hst attributes ∅ (attributes_rows_ok _ Hrt))
    as [d Hd].
  exists d. split; [done|]. split; [|split].
  - intros key pk rest Hin.
    pose proof (loop_in f status Hst _ _ _ _ _ _ Hnodup Hd Hin) as Hrow.
    destruct (status !! pk) as [val|].
    + destruct Hrow as (v & _ & ->). split; eauto.
    + rewrite Hrow, lookup_empty. split; by intros [? ?].
  - intros key Hkey.
    destruct (decide (key ∈ attributes.*1.*1)) as [|Hnotin]; [done|].
    rewrite (loop_notin f status Hst _ _ _ _ Hd Hnotin), lookup_empty in Hkey.
    by destruct Hkey.
  - intros f' status' Hst' Hagree. unfold device_state_attributes.
    by rewrite (loop_ext f f' status status').
Qed.


(** * Further properties of the module *)

(** ** Platform setup *)

(** A model outside the dispatch table makes [async_setup_platform]
    return [False]: no device object is built, the network is not
    touched (the outcome is the same for every environment) and no entity
    is added. *)
Theorem setup_unsupported_model config :
  CONF_MODEL config ≠ MODEL_AC4236 →
  async_setup_platform env config
  = {| returned := Ok (Some false); device := None; added := [] |}.
Proof.
  intros Hmodel. rewrite setup_cases. by rewrite bool_decide_eq_false_2.
Qed.

(** Entities are added exactly when the call returns [None], one at a
    time, and an added entity is fully identified: it has a unique_id and
    a client, its observer task slot holds [None], and it is still
    unavailable with an unset on/off state. *)
Theorem setup_adds_identified_entities config :
  (returned (async_setup_platform env config) = Ok None
   ↔ added (async_setup_platform env config) ≠ [])
  ∧ ∀ f, f ∈ added (async_setup_platform env config) →
         added (async_setup_platform env config) = [f]
         ∧ is_Some (unique_id f)
         ∧ is_Some (_client f)
         ∧ _observer_task f = Some None
         ∧ available f = false
         ∧ is_on f = None
         ∧ _host f = CONF_HOST config
         ∧ name f = CONF_NAME config
         ∧ icon f = CONF_ICON config.
Proof.
  rewrite setup_cases. case_bool_decide as Hmodel; simpl.
  2: { split; [split; [done | by intros []] | by intros f ?%elem_of_nil]. }
  rewrite init_cases. simpl.
  destruct (env_create env (CONF_HOST config)) as [c|e]; simpl.
  2: { split; [split; [done | by intros []] | by intros f ?%elem_of_nil]. }
  destruct (env_get_status env c) as [status|e]; simpl.
  2: { split; [split; [done | by intros []] | by intros f ?%elem_of_nil]. }
  destruct (status !! PHILIPS_DEVICE_ID) as [device_id|]; simpl.
  2: { split; [split; [done | by intros []] | by intros f ?%elem_of_nil]. }
  split; [done|]. intros f ->%list_elem_of_singleton. simpl.
  repeat split; eauto.
Qed.

(** ** What [init] touches *)

(** [init] creates no task, sends no command and schedules no state
    update; of the entity it leaves the configuration, the availability,
    the on/off state and both status dicts alone.  When the transport
    open raises, nothing at all is written; once it has succeeded the
    client stays bound and the task slot holds [None], also when the
    fetch fails afterwards. *)
Theorem init_footprint w :
  tasks (snd (init env w)) = tasks w
  ∧ sent (snd (init env w)) = sent w
  ∧ ha_updates (snd (init env w)) = ha_updates w
  ∧ _host (self (snd (init env w))) = _host (self w)
  ∧ _model (self (snd (init env w))) = _model (self w)
  ∧ _name (self (snd (init env w))) = _name (self w)
  ∧ _icon (self (snd (init env w))) = _icon (self w)
  ∧ _available (self (snd (init env w))) = _available (self w)
  ∧ _state (self (snd (init env w))) = _state (self w)
  ∧ _device_state (self (snd (init env w))) = _device_state (self w)
  ∧ _device_status (self (snd (init env w))) = _device_status (self w)
  ∧ match env_create env (_host (self w)) with
    | Raise e => init env w = (Raise e, w)
    | Ok c => _client (self (snd (init env w))) = Some c
              ∧ _observer_task (self (snd (init env w))) = Some None
    end.
Proof.
  rewrite init_cases.
  destruct (env_create env (_host (self w))) as [c|e]; [|done].
  simpl. destruct (env_get_status env c) as [status|e]; [|done].
  by destruct (status !! PHILIPS_DEVICE_ID).
Qed.

(** For one model, distinct device ids (strings) give distinct unique
    ids. *)
Theorem unique_id_injective w1 w2 c1 c2 s1 s2 d1 d2 :
  _model (self w1) = _model (self w2) →
  env_create env (_host (self w1)) = Ok c1 →
  env_create env (_host (self w2)) = Ok c2 →
  env_get_status env c1 = Ok s1 →
  env_get_status env c2 = Ok s2 →
  s1 !! PHILIPS_DEVICE_ID = Some (VStr d1) →
  s2 !! PHILIPS_DEVICE_ID = Some (VStr d2) →
  unique_id (self (snd (init env w1))) = unique_id (self (snd (init env w2))) →
  d1 = d2.
Proof.
  intros Hmodel Hc1 Hc2 Hs1 Hs2 Hd1 Hd2.
  rewrite !init_cases, Hc1, Hc2. simpl. rewrite Hs1, Hs2, Hd1, Hd2. simpl.
  rewrite Hmodel. intros [= Heq]. revert Heq.
  generalize (_model (self w2)) as m.
  induction m as [|a m IH]; simpl; intros [= Heq]; [done | by apply IH].
Qed.

(** ** Commands *)

(** No command coroutine writes to the entity or to the tasks, whatever
    the device answers: the on/off state and the cached status change
    only when a snapshot is consumed. *)
Theorem commands_keep_entity speed s w :
  (self (snd (async_turn_on env speed w)) = self w
   ∧ tasks (snd (async_turn_on env speed w)) = tasks w)
  ∧ (self (snd (async_turn_off env w)) = self w
     ∧ tasks (snd (async_turn_off env w)) = tasks w)
  ∧ (self (snd (async_set_speed env s w)) = self w
     ∧ tasks (snd (async_set_speed env s w)) = tasks w).
Proof.
  split; [apply keeps_async_turn_on|].
  split; [apply keeps_async_turn_off | apply keeps_async_set_speed].
Qed.

(** Turning on with a speed is setting that speed. *)
Theorem turn_on_with_speed s : async_turn_on env (Some s) = async_set_speed env s.
Proof.
  unfold async_turn_on, async_set_speed.
  by case_bool_decide.
Qed.

Lemma set_control_value_client key val w c :
  _client (self w) = Some c →
  set_control_value env key val w
  = (match env_set_control env (sent w) key val with
     | None => Ok ()
     | Some e => Raise e
     end,
     {| self := self w; tasks := tasks w; sent := sent w ++ [(key, val)];
        ha_updates := ha_updates w |}).
Proof.
  intros Hc. unfold set_control_value. rewrite Hc.
  by destruct (env_set_control env (sent w) key val).
Qed.

Lemma set_speed_sent s w c :
  acknowledges →
  _client (self w) = Some c →
  s ≠ SPEED_OFF →
  fst (async_set_speed env s w) = Ok ()
  ∧ sent (snd (async_set_speed env s w))
    = (sent w ++ power_on_first (self w)
       ++ match speed_command s with Some cmd => [cmd] | None => [] end)%list.
Proof.
  intros Hack Hc Hs. unfold async_set_speed.
  rewrite bool_decide_eq_false_2 by done.
  unfold mbind, M_bind, get_self, power_on_first, speed_command.
  cbn [fst snd].
  destruct (default false (is_on (self w))); cbn [negb].
  - unfold mret, M_ret. rewrite app_nil_l.
    repeat case_bool_decide;
      rewrite ?(set_control_value_client _ _ _ c Hc), ?Hack;
      simpl; by rewrite ?app_nil_r.
  - unfold async_turn_on_default.
    rewrite (set_control_value_client _ _ _ c Hc), Hack.
    repeat case_bool_decide;
      rewrite ?(set_control_value_client _ _ _ c) by done; rewrite ?Hack;
      simpl; by rewrite <- ?app_assoc, ?app_nil_r.
Qed.

(** With a client and a device that acknowledges, [async_set_speed]
    sends, for the off speed, the power-off alone; for a named speed, the
    power-on first unless the entity is known to be on, then the one
    command of that speed. *)
Theorem set_speed_commands w c :
  acknowledges →
  _client (self w) = Some c →
  NoDup SPEED_LIST →
  (fst (async_set_speed env SPEED_OFF w) = Ok ()
   ∧ sent (snd (async_set_speed env SPEED_OFF w)) = (sent w ++ [(PHILIPS_POWER, "0")])%list)
  ∧ ∀ s cmd,
      (s, cmd) ∈ [ (SPEED_1, (PHILIPS_SPEED, "1"));
                   (SPEED_2, (PHILIPS_SPEED, "2"));
                   (SPEED_MODE_AUTO, (PHILIPS_MODE, "AG"));
                   (SPEED_MODE_SLEEP, (PHILIPS_MODE, "S"));
                   (SPEED_MODE_TURBO, (PHILIPS_MODE, "T")) ] →
      fst (async_set_speed env s w) = Ok ()
      ∧ sent (snd (async_set_speed env s w))
        = (sent w ++ power_on_first (self w) ++ [cmd])%list.
Proof.
  intros Hack Hc Hnd. split.
  - unfold async_set_speed. rewrite bool_decide_eq_true_2 by done.
    unfold async_turn_off. by rewrite (set_control_value_client _ _ _ c Hc), Hack.
  - intros s cmd Hin.
    unfold SPEED_LIST in Hnd.
    rewrite !NoDup_cons, !not_elem_of_cons, elem_of_nil in Hnd.
    assert (s ≠ SPEED_OFF ∧ speed_command s = Some cmd) as [Hs Hcmd].
    { rewrite !elem_of_cons, elem_of_nil in Hin. unfold speed_command.
      destruct Hin as [[= -> ->]|[[= -> ->]|[[= -> ->]|[[= -> ->]|[[= -> ->]|[]]]]]];
        (split; [intuition congruence|]);
        repeat case_bool_decide; intuition congruence. }
    destruct (set_speed_sent s w c Hack Hc Hs) as [Hok Hsent].
    by rewrite Hcmd in Hsent.
Qed.


(** When the power-on that [async_set_speed] sends first fails, its
    exception ends the call: the speed command is not sent. *)
Theorem set_speed_power_on_failure s w c e :
  _client (self w) = Some c →
  s ≠ SPEED_OFF →
  default false (is_on (self w)) = false →
  env_set_control env (sent w) PHILIPS_POWER "1" = Some e →
  fst (async_set_speed env s w) = Raise e
  ∧ sent (snd (async_set_speed env s w)) = (sent w ++ [(PHILIPS_POWER, "1")])%list.
Proof.
  intros Hc Hs Hoff Hfail. unfold async_set_speed.
  rewrite bool_decide_eq_false_2 by done.
  unfold mbind, M_bind, get_self. cbn [fst snd]. rewrite Hoff. cbn [negb].
  unfold async_turn_on_default.
  by rewrite (set_control_value_client _ _ _ c Hc), Hfail.
Qed.

(** Without a client (before [init]) the commands raise
    [AttributeError] and send nothing. *)
Theorem commands_need_client w :
  _client (self w) = None →
  async_turn_off env w = (Raise (AttributeError "_client"), w)
  ∧ async_turn_on env None w = (Raise (AttributeError "_client"), w)
  ∧ ∀ s, s ∈ SPEED_LIST →
         async_set_speed env s w = (Raise (AttributeError "_client"), w).
Proof.
  intros Hc.
  assert (Hscv : ∀ key val,
    set_control_value env key val w = (Raise (AttributeError "_client"), w)).
  { intros key val. unfold set_control_value. by rewrite Hc. }
  split; [apply Hscv|]. split; [apply Hscv|].
  intros s Hin. unfold async_set_speed.
  case_bool_decide as Hoff; [apply Hscv|].
  unfold mbind, M_bind, get_self. cbn [fst snd].
  destruct (negb (default false (is_on (self w)))).
  - unfold async_turn_on_default. by rewrite Hscv.
  - unfold mret, M_ret.
    unfold SPEED_LIST in Hin. rewrite !elem_of_cons, elem_of_nil in Hin.
    repeat case_bool_decide; try apply Hscv. intuition congruence.
Qed.

(** ** The command log and the state updates along a run *)

Lemma appends_ret {A} (a : A) : appends (mret a).
Proof. intros w. split; [exists []; by rewrite app_nil_r | done]. Qed.

Lemma appends_get_self : appends get_self.
Proof. intros w. split; [exists []; by rewrite app_nil_r | done]. Qed.

Lemma appends_bind {A B} (m : M A) (k : A → M B) :
  appends m → (∀ a, appends (k a)) → appends (m ≫= k).
Proof.
  intros Hm Hk w. unfold mbind, M_bind.
  destruct (Hm w) as [[l Hl] Hu]. destruct (m w) as [[a|e] w1]; simpl in *.
  - destruct (Hk a w1) as [[l' Hl'] Hu']. split; [|congruence].
    exists (l ++ l')%list. by rewrite Hl', Hl, app_assoc.
  - eauto.
Qed.

Lemma appends_set_control_value key val : appends (set_control_value env key val).
Proof.
  intros w. unfold set_control_value.
  destruct (_client (self w)).
  - destruct (env_set_control env (sent w) key val); simpl; eauto.
  - split; [exists []; by rewrite app_nil_r | done].
Qed.

Lemma appends_async_set_speed s : appends (async_set_speed env s).
Proof.
  unfold async_set_speed. case_bool_decide; [apply appends_set_control_value|].
  apply appends_bind; [apply appends_get_self|]. intros f.
  apply appends_bind.
  { destruct (negb _); [apply appends_set_control_value | apply appends_ret]. }
  intros _.
  repeat case_bool_decide;
    first [apply appends_set_control_value | apply appends_ret].
Qed.

Lemma appends_run_call c : appends (run_call env c).
Proof.
  destruct c as [| |s| |s]; simpl.
  - intros w. split; [exists []; by rewrite app_nil_r | done].
  - apply appends_ret.
  - destruct s as [s|]; simpl; [|apply appends_set_control_value].
    case_bool_decide; [apply appends_set_control_value | apply appends_async_set_speed].
  - apply appends_set_control_value.
  - apply appends_async_set_speed.
Qed.

(** Commands are only ever added at the end of the log of what was sent:
    no host call and no observe event drops or reorders one, and the
    state update of the host is scheduled once for each consumed
    snapshot and by nothing else. *)
Theorem log_and_updates_along_run w evs :
  (∃ l : list (string * string), sent (run env w evs) = (sent w ++ l)%list)
  ∧ ha_updates (run env w evs) = ha_updates w + length (consumed env w evs).
Proof.
  revert w. induction evs as [|ev evs IH]; intros w.
  - split; [exists []; by rewrite app_nil_r | simpl; lia].
  - change (run env w (ev :: evs)) with (run env (step env w ev) evs).
    destruct (IH (step env w ev)) as [[l Hl] Hu].
    cbn [consumed]. rewrite length_app, Hu, Hl.
    destruct ev as [c|t status|t e]; simpl.
    + destruct (appends_run_call c w) as [[l' Hl'] Hu'].
      split; [|lia]. exists (l' ++ l)%list. by rewrite Hl', app_assoc.
    + destruct (task_running t w); simpl; (split; [by exists l | lia]).
    + destruct (task_running t w); simpl; (split; [by exists l | lia]).
Qed.

(** The three cached fields agree at every moment of an entity's life:
    either no status is cached, the on/off state is unset and the entity
    is unavailable, or a status is cached, the on/off state is that
    status's power being ["1"], and the entity is available. *)
Theorem cache_consistent host model name icon evs :
  let w0 := snd (init env (new_world
              (PhilipsGenericCoAPFan_new host model name icon))) in
  match _device_status (self (run env w0 evs)) with
  | None => is_on (self (run env w0 evs)) = None
            ∧ available (self (run env w0 evs)) = false
  | Some status =>
      is_on (self (run env w0 evs))
      = Some (bool_decide (status !! PHILIPS_POWER = Some (VStr "1")))
      ∧ available (self (run env w0 evs)) = true
  end.
Proof.
  intros w0.
  pose proof (run_cache evs w0) as Hrun.
  pose proof (init_cache (new_world
    (PhilipsGenericCoAPFan_new host model name icon))) as Hc.
  fold w0 in Hc. unfold cache, cache_after, is_on, available in *.
  destruct (last (consumed env w0 evs)) as [T|].
  - injection Hrun as -> -> _ ->. by rewrite py_eq_str_spec.
  - injection Hrun as -> -> _ ->.
    destruct (fst (init env _)); injection Hc; intros; simpl in *;
      match goal with Hd : _device_status _ = None |- _ => rewrite Hd end;
      split; congruence.
Qed.

Lemma attributes_unset f :
  _device_status f = None →
  device_state_attributes f = Raise (AttributeError "_device_status").
Proof.
  intros Hst. unfold device_state_attributes, attributes.
  cbn [attributes_loop]. unfold append. by rewrite Hst.
Qed.

(** Until the first snapshot has been consumed, reading the state
    attributes or the speed of an entity raises [AttributeError]: the
    constructor binds [_device_state], the readers use [_device_status]. *)
Theorem reads_before_first_update host model name icon evs :
  let w0 := snd (init env (new_world
              (PhilipsGenericCoAPFan_new host model name icon))) in
  consumed env w0 evs = [] →
  device_state_attributes (self (run env w0 evs))
  = Raise (AttributeError "_device_status")
  ∧ speed (self (run env w0 evs)) = Raise (AttributeError "_device_status").
Proof.
  intros w0 Hnone.
  pose proof (run_cache evs w0) as Hrun.
  pose proof (init_cache (new_world
    (PhilipsGenericCoAPFan_new host model name icon))) as Hc.
  fold w0 in Hc. unfold cache, cache_after in *. rewrite Hnone in Hrun.
  simpl in Hrun. injection Hrun as _ _ _ Hst.
  assert (_device_status (self (run env w0 evs)) = None) as Hunset.
  { rewrite Hst.
    destruct (fst (init env _)); injection Hc; intros; simpl in *; congruence. }
  split; [by apply attributes_unset|].
  unfold speed. by rewrite Hunset.
Qed.

(** ** The observer task *)

(** [async_added_to_hass] puts one new task on the loop and stores its
    handle.  With a client the task is running; on an entity that [init]
    has not given a client the task ends at once with [AttributeError]. *)
Theorem added_to_hass_task w :
  fst (async_added_to_hass w) = Ok ()
  ∧ length (tasks (snd (async_added_to_hass w))) = S (length (tasks w))
  ∧ _observer_task (self (snd (async_added_to_hass w)))
    = Some (Some (length (tasks w)))
  ∧ match _client (self w) with
    | Some _ => task_running (length (tasks w)) (snd (async_added_to_hass w)) = true
    | None => tasks (snd (async_added_to_hass w)) !! length (tasks w)
              = Some (Finished (Some (AttributeError "_client")))
    end.
Proof.
  unfold async_added_to_hass, mbind, M_bind, get_self, create_task, modify_self,
    task_running, _observe_status_start.
  cbn [fst snd self tasks]. rewrite length_app. simpl.
  split; [done|]. split; [lia|]. split; [done|].
  rewrite lookup_app_r, Nat.sub_diag by lia.
  by destruct (_client (self w)).
Qed.

(** A task that is running is not stopped or replaced when
    [async_added_to_hass] is called again: the snapshots of its stream
    are still consumed. *)
Theorem added_to_hass_keeps_tasks w t status :
  task_running t w = true →
  task_running t (snd (async_added_to_hass w)) = true
  ∧ consumed env w [HostCall AddedToHass; StreamYield t status] = [status]
  ∧ _device_status (self (run env w [HostCall AddedToHass; StreamYield t status]))
    = Some status.
Proof.
  intros Hrun.
  assert (task_running t (snd (async_added_to_hass w)) = true) as Hkeeps.
  { unfold task_running in *.
    unfold async_added_to_hass, mbind, M_bind, get_self, create_task, modify_self.
    cbn [fst snd self tasks].
    destruct (tasks w !! t) as [task|] eqn:Ht; [|done].
    by rewrite (lookup_app_l_Some _ _ _ _ Ht). }
  split; [done|].
  unfold run. cbn [consumed foldl].
  change (step env w (HostCall AddedToHass)) with (snd (async_added_to_hass w)).
  cbn [step]. by rewrite Hkeeps.
Qed.

(** ** More on the speed and on the attributes *)

(** Once a status is cached [speed] does not raise, and a speed it names
    is one of [speed_list]. *)
Theorem speed_in_speed_list f status :
  _device_status f = Some status →
  ∃ r, speed f = Ok r ∧ ∀ s, r = Some s → s ∈ speed_list f.
Proof.
  intros Hst. unfold speed, speed_list, SPEED_LIST. rewrite Hst. cbv zeta.
  repeat match goal with
         | |- context [if ?b then _ else _] => destruct b
         end;
    (eexists; split; [reflexivity|]; intros s [= <-] || intros s [=]);
    rewrite !elem_of_cons; tauto.
Qed.

(** [speed] names no speed ([None]) exactly when the power is not ["0"]
    and the mode is none of manual with speed ["1"] or ["2"], ["AG"],
    ["S"], ["T"]: a status without a mode key, for one. *)
Theorem speed_unnamed f status :
  _device_status f = Some status →
  speed f = Ok None
  ↔ status !! PHILIPS_POWER ≠ Some (VStr "0")
    ∧ ¬ (status !! PHILIPS_MODE = Some (VStr "M")
         ∧ (status !! PHILIPS_SPEED = Some (VStr "1")
            ∨ status !! PHILIPS_SPEED = Some (VStr "2")))
    ∧ status !! PHILIPS_MODE ≠ Some (VStr "AG")
    ∧ status !! PHILIPS_MODE ≠ Some (VStr "S")
    ∧ status !! PHILIPS_MODE ≠ Some (VStr "T").
Proof.
  intros Hst. unfold speed. rewrite Hst. cbv zeta.
  rewrite !py_eq_str_spec.
  repeat case_bool_decide; simpl; split; try discriminate; try tauto;
    intros; repeat split; try congruence; tauto.
Qed.

(** An attribute whose row has no value map reports the raw value of its
    protocol key as it is. *)
Theorem plain_rows_verbatim f status :
  _device_status f = Some status →
  NoDup (attributes.*1.*1) →
  ∀ key pk val,
    (key, pk, []) ∈ attributes →
    status !! pk = Some val →
    match device_state_attributes f with
    | Ok d => d !! key = Some val
    | Raise e => ∃ rt, status !! PHILIPS_RUNTIME = Some rt
                       ∧ runtime_lambda rt = Raise e
    end.
Proof.
  intros Hst Hnodup key pk val Hin Hval.
  destruct (device_state_attributes f) as [d|e] eqn:Hd.
  - pose proof (loop_in f status Hst _ _ _ _ _ _ Hnodup Hd Hin) as Hrow.
    rewrite Hval in Hrow. destruct Hrow as (v & Hv & ->).
    simpl in Hv. by injection Hv as <-.
  - pose proof (attributes_outcome f status Hst) as Hout.
    rewrite Hd in Hout.
    destruct (status !! PHILIPS_RUNTIME) as [rt|]; [|by destruct Hout].
    destruct (runtime_lambda rt) as [v|e'] eqn:Hg; [by destruct Hout|].
    exists rt. split; [done|]. congruence.
Qed.

Lemma loop_absent f status rows : ∀ d,
  _device_status f = Some status →
  (∀ key pk rest, (key, pk, rest) ∈ rows → status !! pk = None) →
  attributes_loop f rows d = Ok d.
Proof.
  intros d Hst. revert d.
  induction rows as [|[[key pk] rest] rows IH]; intros d Habsent; [done|].
  rewrite (loop_cons f status Hst).
  rewrite (Habsent key pk rest) by left.
  apply IH. intros k p r Hin. eapply Habsent. by right.
Qed.

(** A status that holds none of the protocol keys of the table (an empty
    one, or one of unknown keys only) gives an empty attribute
    dictionary, not an error. *)
Theorem no_table_keys_no_attributes f status :
  _device_status f = Some status →
  (∀ key pk rest, (key, pk, rest) ∈ attributes → status !! pk = None) →
  device_state_attributes f = Ok ∅.
Proof. intros Hst Habsent. by apply (loop_absent f status). Qed.

End Properties.

(** * The model at work *)

Import Sample.
#[local] Existing Instance Sample.const.

Lemma sample_names_distinct : NoDup (attributes.*1.*1).
Proof. apply (bool_decide_unpack _). vm_compute. exact I. Defined.

(** The scenario of the specification: the device answers the first fetch
    with [first_status]; setup succeeds, and yet nothing is cached. *)
Lemma first_fetch_is_not_cached :
  init Sample.env fresh = (Ok (), ready)
  ∧ env_get_status Sample.env (mkClient "10.0.0.5") = Ok first_status
  ∧ consumed Sample.env ready [] = []
  ∧ _device_status (self ready) ≠ Some first_status
  ∧ device_state_attributes (self ready) = Raise (AttributeError "_device_status")
  ∧ speed (self ready) = Raise (AttributeError "_device_status")
  ∧ is_on (self ready) = None.
Proof. vm_compute. repeat split; discriminate. Qed.

Lemma init_does_not_cache_status_witness :
  init Sample.env fresh = (Ok (), ready)
  ∧ _device_status (self (run Sample.env ready
       [HostCall AddedToHass; StreamYield 0 first_status; StreamYield 0 off_status]))
    = Some off_status.
Proof.
  split; [reflexivity|].
  refine (eq_trans (init_does_not_cache_status Sample.env fresh ready _ eq_refl) _).
  vm_compute. reflexivity.
Defined.

(** After removal the observer task still runs and still caches. *)
Lemma removal_does_not_stop_observing :
  let evs := [HostCall AddedToHass; HostCall WillRemoveFromHass;
              StreamYield 0 off_status] in
  consumed Sample.env ready evs = [off_status]
  ∧ _device_status (self (run Sample.env ready evs)) = Some off_status
  ∧ tasks (run Sample.env ready evs) = [Running]
  ∧ _client (self (run Sample.env ready evs)) = Some (mkClient "10.0.0.5").
Proof. vm_compute. repeat split. Qed.

Lemma will_remove_keeps_observing_witness :
  task_running 0 (run Sample.env ready [HostCall AddedToHass]) = true
  ∧ _device_status (self (run Sample.env
        (run Sample.env ready [HostCall AddedToHass])
        [HostCall WillRemoveFromHass; StreamYield 0 off_status]))
    = Some off_status.
Proof.
  split; [reflexivity|].
  apply (will_remove_keeps_observing Sample.env
           (run Sample.env ready [HostCall AddedToHass]) 0 off_status).
  reflexivity.
Defined.

(** A host that cannot be reached: the exception of the transport open
    reaches the caller as it is. *)
Lemma open_failure_is_not_platform_not_ready :
  env_create env_unreachable (CONF_HOST config) = Raise (ClientError "unreachable")
  ∧ returned (async_setup_platform env_unreachable config)
    = Raise (ClientError "unreachable")
  ∧ returned (async_setup_platform env_unreachable config) ≠ Raise PlatformNotReady.
Proof. vm_compute. repeat split; discriminate. Qed.

Lemma init_failure_witness :
  CONF_MODEL config = MODEL_AC4236
  ∧ returned (async_setup_platform env_unreachable config)
    = Raise (ClientError "unreachable")
  ∧ added (async_setup_platform env_unreachable config) = [].
Proof.
  split; [reflexivity|].
  destruct (init_failure (H:=const) env_unreachable config eq_refl) as [Hopen _].
  destruct (Hopen (ClientError "unreachable") eq_refl) as (Hret & Hadded & _).
  split; [exact Hret | exact Hadded].
Defined.

Lemma unique_id_from_first_snapshot_witness :
  CONF_MODEL config = MODEL_AC4236
  ∧ env_create Sample.env (CONF_HOST config) = Ok (mkClient "10.0.0.5")
  ∧ env_get_status Sample.env (mkClient "10.0.0.5") = Ok first_status
  ∧ first_status !! PHILIPS_DEVICE_ID = Some (VStr "AC4236-001")
  ∧ ∃ w, device (async_setup_platform Sample.env config) = Some w
         ∧ ∀ evs, unique_id (self (run Sample.env w evs)) = Some "AC4236-AC4236-001".
Proof.
  repeat (split; [reflexivity|]).
  destruct (unique_id_from_first_snapshot (H:=const) Sample.env config
              (mkClient "10.0.0.5") first_status (VStr "AC4236-001")
              eq_refl eq_refl eq_refl eq_refl) as (w & _ & Hdev & _ & Hid).
  exists w. split; [exact Hdev | exact Hid].
Defined.

Lemma speed_translation_witness :
  _device_status (with_status first_status) = Some first_status
  ∧ first_status !! PHILIPS_POWER ≠ Some (VStr "0")
  ∧ first_status !! PHILIPS_MODE = Some (VStr "M")
  ∧ first_status !! PHILIPS_SPEED = Some (VStr "2")
  ∧ speed (with_status first_status) = Ok (Some SPEED_2).
Proof.
  assert (Hpower : first_status !! PHILIPS_POWER ≠ Some (VStr "0"))
    by (vm_compute; discriminate).
  split; [reflexivity|]. split; [exact Hpower|].
  split; [reflexivity|]. split; [reflexivity|].
  destruct (speed_translation (H:=const) (with_status first_status)
              first_status eq_refl)
    as [_ Hon].
  destruct (Hon Hpower) as (_ & H2 & _).
  exact (H2 eq_refl eq_refl).
Defined.

Lemma available_monotone_witness :
  available (self (run Sample.env ready
     [HostCall AddedToHass; StreamYield 0 off_status])) = true
  ∧ available (self (run Sample.env ready
     ([HostCall AddedToHass; StreamYield 0 off_status]
      ++ [StreamEnd 0 (Some (ClientError "observe failed"));
          HostCall TurnOff; HostCall WillRemoveFromHass]))) = true.
Proof.
  split; [reflexivity|].
  destruct (available_monotone Sample.env "10.0.0.5" "AC4236" "n" "i" ready
    [HostCall AddedToHass; StreamYield 0 off_status]
    [StreamEnd 0 (Some (ClientError "observe failed"));
     HostCall TurnOff; HostCall WillRemoveFromHass]) as (_ & _ & _ & Hmono).
  apply Hmono. reflexivity.
Defined.

(** A runtime carried as a string: the formatter raises, and so does the
    extraction, although the key is there. *)
Lemma text_runtime_raises :
  _device_status (with_status text_runtime_status) = Some text_runtime_status
  ∧ text_runtime_status !! PHILIPS_RUNTIME = Some (VStr "3723500")
  ∧ device_state_attributes (with_status text_runtime_status) = Raise TypeError.
Proof. vm_compute. repeat split. Qed.

Lemma attributes_skip_absent_keys_witness :
  _device_status (with_status off_status) = Some off_status
  ∧ NoDup (attributes.*1.*1)
  ∧ (∀ val, off_status !! PHILIPS_RUNTIME = Some val →
            is_Ok (runtime_lambda val) = true)
  ∧ ∃ d, device_state_attributes (with_status off_status) = Ok d
         ∧ (is_Some (d !! ATTR_RUNTIME) ↔ is_Some (off_status !! PHILIPS_RUNTIME))
         ∧ (is_Some (d !! ATTR_PM25) ↔ is_Some (off_status !! PHILIPS_PM25)).
Proof.
  assert (Hrt : ∀ val, off_status !! PHILIPS_RUNTIME = Some val →
                       is_Ok (runtime_lambda val) = true).
  { intros val Hval. vm_compute in Hval. injection Hval as <-. reflexivity. }
  split; [reflexivity|]. split; [exact sample_names_distinct|].
  split; [exact Hrt|].
  destruct (attributes_skip_absent_keys (H:=const) (with_status off_status) off_status
              eq_refl sample_names_distinct Hrt) as (d & Hd & Hiff & _).
  exists d. split; [exact Hd|]. split.
  - apply (Hiff _ _ [MapCallable runtime_lambda]).
    unfold attributes. rewrite !elem_of_cons. tauto.
  - apply (Hiff _ _ []).
    unfold attributes. rewrite !elem_of_cons. tauto.
Defined.



(** ** Further properties at work *)

Lemma sample_speed_names_distinct : NoDup SPEED_LIST.
Proof. apply (bool_decide_unpack _). vm_compute. exact I. Defined.

Lemma sample_acknowledges : acknowledges Sample.env.
Proof. intros log key val. reflexivity. Defined.

Lemma setup_unsupported_model_witness :
  CONF_MODEL config_unsupported ≠ MODEL_AC4236
  ∧ returned (async_setup_platform Sample.env config_unsupported) = Ok (Some false)
  ∧ added (async_setup_platform env_unreachable config_unsupported) = [].
Proof.
  assert (Hmodel : CONF_MODEL config_unsupported ≠ MODEL_AC4236)
    by (vm_compute; discriminate).
  split; [exact Hmodel|]. split.
  - exact (f_equal returned
      (setup_unsupported_model (H:=const) Sample.env config_unsupported Hmodel)).
  - exact (f_equal added
      (setup_unsupported_model (H:=const) env_unreachable config_unsupported Hmodel)).
Defined.

Lemma setup_adds_identified_entities_witness :
  self ready ∈ added (async_setup_platform Sample.env config)
  ∧ is_Some (unique_id (self ready))
  ∧ _observer_task (self ready) = Some None.
Proof.
  assert (Hin : self ready ∈ added (async_setup_platform Sample.env config))
    by (vm_compute; left).
  split; [exact Hin|].
  destruct (setup_adds_identified_entities (H:=const) Sample.env config)
    as [_ Hadded].
  destruct (Hadded (self ready) Hin) as (_ & Hid & _ & Htask & _).
  split; [exact Hid | exact Htask].
Defined.

Lemma unique_id_injective_witness :
  _model (self fresh) = _model (self fresh_second)
  ∧ env_get_status env_two_devices (mkClient "10.0.0.5") = Ok first_status
  ∧ env_get_status env_two_devices (mkClient "10.0.0.6") = Ok second_status
  ∧ first_status !! PHILIPS_DEVICE_ID = Some (VStr "AC4236-001")
  ∧ second_status !! PHILIPS_DEVICE_ID = Some (VStr "AC4236-002")
  ∧ unique_id (self (snd (init env_two_devices fresh)))
    ≠ unique_id (self (snd (init env_two_devices fresh_second))).
Proof.
  repeat (split; [reflexivity|]).
  intros Hsame.
  pose proof (unique_id_injective (H:=const) env_two_devices fresh fresh_second
                (mkClient "10.0.0.5") (mkClient "10.0.0.6")
                first_status second_status "AC4236-001" "AC4236-002"
                eq_refl eq_refl eq_refl eq_refl eq_refl eq_refl eq_refl Hsame)
    as Hids.
  discriminate Hids.
Defined.

Lemma set_speed_commands_witness :
  _client (self ready) = Some (mkClient "10.0.0.5")
  ∧ NoDup SPEED_LIST
  ∧ sent (snd (async_set_speed Sample.env SPEED_MODE_TURBO ready))
    = [(PHILIPS_POWER, "1"); (PHILIPS_MODE, "T")].
Proof.
  split; [reflexivity|]. split; [exact sample_speed_names_distinct|].
  destruct (set_speed_commands (H:=const) Sample.env ready (mkClient "10.0.0.5")
              sample_acknowledges eq_refl sample_speed_names_distinct)
    as [_ Hnamed].
  destruct (Hnamed SPEED_MODE_TURBO (PHILIPS_MODE, "T")) as [_ Hsent].
  - rewrite !elem_of_cons. tauto.
  - exact Hsent.
Defined.


Lemma set_speed_power_on_failure_witness :
  env_set_control env_rejecting (sent ready) PHILIPS_POWER "1"
  = Some (ClientError "rejected")
  ∧ fst (async_set_speed env_rejecting SPEED_MODE_TURBO ready)
    = Raise (ClientError "rejected")
  ∧ sent (snd (async_set_speed env_rejecting SPEED_MODE_TURBO ready))
    = [(PHILIPS_POWER, "1")].
Proof.
  split; [reflexivity|].
  refine (set_speed_power_on_failure (H:=const) env_rejecting SPEED_MODE_TURBO
            ready (mkClient "10.0.0.5") (ClientError "rejected")
            eq_refl _ eq_refl eq_refl).
  vm_compute. discriminate.
Defined.

Lemma commands_need_client_witness :
  _client (self fresh) = None
  ∧ async_turn_off Sample.env fresh = (Raise (AttributeError "_client"), fresh).
Proof.
  split; [reflexivity|].
  exact (proj1 (commands_need_client (H:=const) Sample.env fresh eq_refl)).
Defined.

Lemma reads_before_first_update_witness :
  consumed Sample.env ready [HostCall AddedToHass; HostCall TurnOff] = []
  ∧ device_state_attributes
      (self (run Sample.env ready [HostCall AddedToHass; HostCall TurnOff]))
    = Raise (AttributeError "_device_status").
Proof.
  split; [reflexivity|].
  exact (proj1 (reads_before_first_update (H:=const) Sample.env
           "10.0.0.5" "AC4236" "Philips Air Purifier" "mdi:air-purifier"
           [HostCall AddedToHass; HostCall TurnOff] eq_refl)).
Defined.

Lemma added_to_hass_keeps_tasks_witness :
  task_running 0 (run Sample.env ready [HostCall AddedToHass]) = true
  ∧ task_running 0 (snd (async_added_to_hass
       (run Sample.env ready [HostCall AddedToHass]))) = true.
Proof.
  split; [reflexivity|].
  exact (proj1 (added_to_hass_keeps_tasks (H:=const) Sample.env
           (run Sample.env ready [HostCall AddedToHass]) 0 off_status eq_refl)).
Defined.

Lemma speed_in_speed_list_witness :
  _device_status (with_status first_status) = Some first_status
  ∧ ∃ r, speed (with_status first_status) = Ok r
         ∧ ∀ s, r = Some s → s ∈ speed_list (with_status first_status).
Proof.
  split; [reflexivity|].
  exact (speed_in_speed_list (H:=const) (with_status first_status)
           first_status eq_refl).
Defined.

Lemma speed_unnamed_witness :
  _device_status (with_status unknown_keys_status) = Some unknown_keys_status
  ∧ speed (with_status unknown_keys_status) = Ok None.
Proof.
  split; [reflexivity|].
  apply (speed_unnamed (H:=const) (with_status unknown_keys_status)
           unknown_keys_status eq_refl).
  vm_compute. repeat split; intros; intuition discriminate.
Defined.

Lemma plain_rows_verbatim_witness :
  _device_status (with_status first_status) = Some first_status
  ∧ NoDup (attributes.*1.*1)
  ∧ (ATTR_DEVICE_ID, PHILIPS_DEVICE_ID, []) ∈ attributes
  ∧ first_status !! PHILIPS_DEVICE_ID = Some (VStr "AC4236-001")
  ∧ match device_state_attributes (with_status first_status) with
    | Ok d => d !! ATTR_DEVICE_ID = Some (VStr "AC4236-001")
    | Raise e => ∃ rt, first_status !! PHILIPS_RUNTIME = Some rt
                       ∧ runtime_lambda rt = Raise e
    end.
Proof.
  assert (Hin : (ATTR_DEVICE_ID, PHILIPS_DEVICE_ID, []) ∈ attributes)
    by (unfold attributes; rewrite !elem_of_cons; tauto).
  split; [reflexivity|]. split; [exact sample_names_distinct|].
  split; [exact Hin|]. split; [reflexivity|].
  exact (plain_rows_verbatim (H:=const) (with_status first_status) first_status
           eq_refl sample_names_distinct ATTR_DEVICE_ID PHILIPS_DEVICE_ID
           (VStr "AC4236-001") Hin eq_refl).
Defined.

Lemma no_table_keys_no_attributes_witness :
  _device_status (with_status unknown_keys_status) = Some unknown_keys_status
  ∧ device_state_attributes (with_status unknown_keys_status) = Ok ∅.
Proof.
  split; [reflexivity|].
  apply (no_table_keys_no_attributes (H:=const) (with_status unknown_keys_status)
           unknown_keys_status eq_refl).
  intros key pk rest Hin. unfold attributes in Hin.
  rewrite !elem_of_cons, elem_of_nil in Hin.
  repeat destruct Hin as [Hin|Hin]; try (injection Hin as -> -> ->; reflexivity).
  destruct Hin.
Defined.
